(** * MyShop storefront (app.py): cart, checkout and password-reset handlers

    A shallow embedding of the Flask handlers of [app.py] that manage the
    cart, the two-step checkout, the order view, the accounts (register,
    login, logout) and the password-reset flow, together with the
    properties the design document states about them and further
    properties read off the code.

    Modelling conventions.
    - The relational store is a record of tables; a table is the list of
      its rows in primary-key order (the order SQLite returns them in for
      a query without ORDER BY).  Foreign keys are not enforced, as with
      the default SQLite engine the application configures.
    - [db.Float] amounts are exact integers (minor currency units):
      rounding of binary floating point is outside the model.
    - Integers are unbounded, as in Python.  SQLite keeps an INTEGER in 64
      bits: [cart_add], which stores a product key and a quantity that the
      request chooses, raises [OverflowError] when one of the integers it
      hands to the store is outside that range.  The other handlers only
      look integers up or copy stored ones.
    - Timestamp columns ([created_at], [added_at]) and the profile columns
      of [User] are left out: none of the handlers below reads them.
    - A Python [str] is a [string] whose characters are code points below
      256.
    - Flask's [session] is a dictionary with string keys, a [gmap].
    - Library calls whose result the handlers only pass along ([int],
      [datetime.isoformat] and [fromisoformat], [generate_password_hash]
      and [check_password_hash]) are parameters.
    - Of what Flask-Login keeps in the session, only the key of the user
      (["_user_id"]) is modelled; [send_email] is the list of messages it
      is asked to deliver.
    - An exception that escapes a handler reaches [errorhandler(500)]:
      the open transaction is rolled back and the 500 page is rendered;
      what the handler did to the session before it raised is kept, as
      Flask saves the session with the error response too.
    - The text of the flashed messages is given without the emoji two of
      them start with. *)

From Stdlib Require Import ZArith String Ascii Lia DecimalString.
From stdpp Require Import base option list gmap strings.

Local Open Scope string_scope.
Local Open Scope list_scope.
Local Open Scope Z_scope.

(** ** Python strings *)

Module Py.

(** Truth value of a [str]: only the empty string is falsy. *)
Definition truthy (s : string) : bool :=
  match s with EmptyString => false | String _ _ => true end.

(** Truth value of [d.get(k)]: [None] and the empty string are falsy. *)
Definition truthy_opt (o : option string) : bool :=
  match o with None => false | Some s => truthy s end.

(** [x or d] on numbers: [0] (and [0.0]) is falsy. *)
Definition or_num (x d : Z) : Z := if x =? 0 then d else x.

(** [str.isspace] on one character, for code points below 256. *)
Definition isspace (c : ascii) : bool :=
  let n := N_of_ascii c in
  ((9 <=? n) && (n <=? 13) || (28 <=? n) && (n <=? 32)
   || (n =? 133) || (n =? 160))%N.

Fixpoint lstrip (s : string) : string :=
  match s with
  | EmptyString => EmptyString
  | String c r => if isspace c then lstrip r else s
  end.

Fixpoint rstrip (s : string) : string :=
  match s with
  | EmptyString => EmptyString
  | String c r =>
      match rstrip r with
      | EmptyString => if isspace c then EmptyString else String c EmptyString
      | r' => String c r'
      end
  end.

(** [s.strip()] *)
Definition strip (s : string) : string := rstrip (lstrip s).

(** [c.upper()] on one character of the ASCII range (the only characters
    it is applied to below are hexadecimal digits). *)
Definition upper_char (c : ascii) : ascii :=
  let n := N_of_ascii c in
  if ((97 <=? n) && (n <=? 122))%N then ascii_of_N (n - 32) else c.

Fixpoint upper (s : string) : string :=
  match s with
  | EmptyString => EmptyString
  | String c r => String (upper_char c) (upper r)
  end.

(** [s[:n]] *)
Definition prefix (n : nat) (s : string) : string := String.substring 0 n s.

(** One digit of ['%x' % d]. *)
Definition hexdigit (d : Z) : ascii :=
  nth (Z.to_nat d) (list_ascii_of_string "0123456789abcdef") "0"%char.

(** [uuid.UUID(int=u).hex], that is ['%032x' % u]: the 32 nibbles of the
    128-bit integer, most significant first. *)
Definition uuid_hex (u : Z) : string :=
  string_of_list_ascii
    (map (λ i : nat, hexdigit (Z.land (Z.shiftr u (4 * Z.of_nat i)) 15))
         (rev (seq 0 32))).

(** [c.lower()] on one character, for code points below 256: the ASCII
    capitals and the accented capitals of Latin-1 (all of [0xC0-0xDE] but
    the multiplication sign) move 32 places up. *)
Definition lower_char (c : ascii) : ascii :=
  let n := N_of_ascii c in
  if ((65 <=? n) && (n <=? 90)
      || (192 <=? n) && (n <=? 222) && negb (n =? 215))%N
  then ascii_of_N (n + 32) else c.

Fixpoint lower (s : string) : string :=
  match s with
  | EmptyString => EmptyString
  | String c r => String (lower_char c) (lower r)
  end.

(** [str(n)] on an integer: its decimal digits, after a minus sign when it
    is negative. *)
Definition str (n : Z) : string := NilZero.string_of_int (Z.to_int n).

(** [s.startswith(p)] *)
Definition startswith (p s : string) : bool := String.prefix p s.

(** [s.split(sep, 1)] for a separator of one character: the text before
    the first separator and the text after it, or [s] alone. *)
Fixpoint split1 (sep : ascii) (s : string) : list string :=
  match s with
  | EmptyString => [EmptyString]
  | String c r =>
      if Ascii.eqb c sep then [EmptyString; r]
      else match split1 sep r with
           | h :: t => String c h :: t
           | [] => [String c EmptyString]
           end
  end.

End Py.

(** ** Models *)

Module User.
Record t := mk { id : Z; email : string; password_hash : string }.
End User.

Module Product.
Record t := mk { id : Z; name : string; price : Z }.
End Product.

Module Cart.
Record t := mk { id : Z; user_id : Z; product_id : Z; quantity : Z }.
End Cart.

Module Order.
Record t := mk {
  id : Z; order_number : string; user_id : Z;
  total_amount : Z; shipping : Z; status : string }.
End Order.

Module OrderItem.
Record t := mk {
  id : Z; order_id : Z; product_id : Z; user_id : Z;
  product_name : string; unit_price : Z; quantity : Z }.
End OrderItem.

Record database := Database {
  tbl_user : list User.t;
  tbl_product : list Product.t;
  tbl_cart : list Cart.t;
  tbl_order : list Order.t;
  tbl_order_item : list OrderItem.t }.

(** ** Exceptions and the query interface *)

Inductive exn :=
| AttributeError       (* attribute access on None *)
| ValueError           (* int() on a malformed string *)
| IntegrityError       (* UNIQUE constraint failed at commit *)
| InvalidRequestError  (* filter_by on a name the entity does not have *)
| OverflowError.       (* an integer too large for an SQLite INTEGER *)

Inductive value := VInt (z : Z) | VStr (s : string).

#[global] Instance value_eq_dec : EqDecision value.
Proof. solve_decision. Defined.

(** [db.Model]: the mapped columns of an entity, by name.  [filter_by]
    resolves its keyword arguments against these names. *)
Class Model (R : Type) := { columns : list (string * (R → value)) }.

#[global] Instance User_model : Model User.t :=
  {| columns := [("id", λ r, VInt (User.id r));
                 ("email", λ r, VStr (User.email r));
                 ("password_hash", λ r, VStr (User.password_hash r))] |}.

#[global] Instance Cart_model : Model Cart.t :=
  {| columns := [("id", λ r, VInt (Cart.id r));
                 ("user_id", λ r, VInt (Cart.user_id r));
                 ("product_id", λ r, VInt (Cart.product_id r));
                 ("quantity", λ r, VInt (Cart.quantity r))] |}.

Fixpoint assoc {A} (k : string) (l : list (string * A)) : option A :=
  match l with
  | [] => None
  | (k', a) :: l' => if String.eqb k k' then Some a else assoc k l'
  end.

(** [Model.query.filter_by(k1=v1, ...)] followed by [.all()]: the rows
    that agree with every criterion, or [InvalidRequestError] when a
    keyword names no mapped column. *)
Fixpoint filter_by {R} `{Model R} (criteria : list (string * value))
    (rows : list R) : exn + list R :=
  match criteria with
  | [] => inr rows
  | (k, v) :: rest =>
      match assoc k columns with
      | None => inl InvalidRequestError
      | Some col => filter_by rest (filter (λ r, col r = v) rows)
      end
  end.

(** [.first()] *)
Definition first {R} (rows : list R) : option R := head rows.

(** [Product.query.get(pk)], which is also how the relationship
    [Cart.product] resolves [product_id]. *)
Definition Product_get (pk : Z) (d : database) : option Product.t :=
  head (filter (λ p, Product.id p = pk) (tbl_product d)).

Definition Cart_product (d : database) (item : Cart.t) : option Product.t :=
  Product_get (Cart.product_id item) d.

Definition Order_get (pk : Z) (d : database) : option Order.t :=
  head (filter (λ o, Order.id o = pk) (tbl_order d)).

(** The key the store gives a new row: one past the largest in use. *)
Definition next_id (ids : list Z) : Z := 1 + foldr Z.max 0 ids.

(** Rebuilding the store with one table replaced. *)
Definition with_user (d : database) (rows : list User.t) : database :=
  Database rows (tbl_product d) (tbl_cart d) (tbl_order d) (tbl_order_item d).
Definition with_cart (d : database) (rows : list Cart.t) : database :=
  Database (tbl_user d) (tbl_product d) rows (tbl_order d) (tbl_order_item d).
Definition with_order (d : database) (rows : list Order.t) : database :=
  Database (tbl_user d) (tbl_product d) (tbl_cart d) rows (tbl_order_item d).
Definition with_order_item (d : database) (rows : list OrderItem.t) : database :=
  Database (tbl_user d) (tbl_product d) (tbl_cart d) (tbl_order d) rows.

(** ** Requests, responses and the state a handler runs in *)

Inductive http_method := GET | POST.

Record request := Request {
  method : http_method;
  form : gmap string string;
  referrer : option string;
  url : string }.

Record state := State { db : database; session : gmap string string }.

(** [url_for(endpoint)], [url_for(endpoint, order_id=n)] or a literal URL. *)
Inductive location :=
| Endpoint (name : string)
| EndpointFor (name : string) (arg : Z)
| Url (u : string).

(** What a template is rendered with. *)
Inductive context :=
| ctx_none
| ctx_cart (items : list Cart.t) (total : Z)
| ctx_confirm (user : Z) (items : list Cart.t) (total : Z)
| ctx_order (order : Order.t)
| ctx_user (user : User.t).

Inductive response :=
| redirect (to : location)
| render_template (template : string) (ctx : context)
| abort (code : Z)
| server_error (e : exn).

(** The response, the messages passed to [flash] (message, category) and
    the state the request leaves behind. *)
Record result := Result {
  resp : response;
  flashed : list (string * string);
  after : state }.

(** [@login_required]: an anonymous request is sent to the login view. *)
Definition login_required (view : Z → state → result)
    (current_user : option Z) (st : state) : result :=
  match current_user with
  | Some uid => view uid st
  | None =>
      Result (redirect (Endpoint "login"))
             [("Please log in to access this page.", "message")] st
  end.

(** ** Order numbers *)

(** [generate_order_number], on the integer of the UUID that [uuid4] drew. *)
Definition generate_order_number (uuid4 : Z) : string :=
  "ORD-" +:+ Py.upper (Py.prefix 10 (Py.uuid_hex uuid4)).

(** ** Cart handlers *)

(** SQLite keeps an INTEGER in 64 bits, signed.  Handing it a Python
    integer outside that range, as a parameter of a query or as a value
    to store, raises [OverflowError]. *)
Definition sqlite_integer (z : Z) : bool := (- 2 ^ 63 <=? z) && (z <? 2 ^ 63).

(** [item.quantity += qty] on the row with that key. *)
Definition add_quantity (pk qty : Z) (r : Cart.t) : Cart.t :=
  if Cart.id r =? pk
  then Cart.mk (Cart.id r) (Cart.user_id r) (Cart.product_id r)
         (Cart.quantity r + qty)
  else r.

Definition increase_quantity (pk qty : Z) (rows : list Cart.t) : list Cart.t :=
  map (add_quantity pk qty) rows.

Section CartAdd.

(** Python's [int] on a form string; [None] stands for [ValueError]. *)
Variable int : string → option Z.

(** [int(request.form.get("quantity", 1))] *)
Definition request_quantity (req : request) : option Z :=
  match form req !! "quantity" with
  | None => Some 1
  | Some s => int s
  end.

Definition cart_add (req : request) (product_id : Z) (current_user : Z)
    (st : state) : result :=
  match request_quantity req with
  | None => Result (server_error ValueError) [] st
  | Some qty =>
      let d := db st in
      if negb (sqlite_integer current_user && sqlite_integer product_id)
      then
        (* the parameters of the query *)
        Result (server_error OverflowError) [] st
      else
        match filter_by [("user_id", VInt current_user);
                         ("product_id", VInt product_id)] (tbl_cart d) with
        | inl e => Result (server_error e) [] st
        | inr rows =>
            (* the quantity the commit writes *)
            let quantity :=
              match first rows with
              | Some item => Cart.quantity item + qty
              | None => qty
              end in
            if negb (sqlite_integer quantity)
            then Result (server_error OverflowError) [] st
            else
              let carts :=
                match first rows with
                | Some item =>
                    increase_quantity (Cart.id item) qty (tbl_cart d)
                | None =>
                    tbl_cart d ++
                    [Cart.mk (next_id (map Cart.id (tbl_cart d)))
                             current_user product_id qty]
                end in
              Result
                (redirect (match referrer req with
                           | Some r =>
                               if Py.truthy r then Url r else Endpoint "cart"
                           | None => Endpoint "cart"
                           end))
                [("Product added to your cart!", "success")]
                (State (with_cart d carts) (session st))
        end
  end.

End CartAdd.

(** The total of the cart view:
    [sum((item.product.price if item.product else 0) * item.quantity ...)]. *)
Definition cart_view_total (d : database) (items : list Cart.t) : Z :=
  fold_left
    (λ acc item,
       acc + (match Cart_product d item with
              | Some p => Product.price p
              | None => 0
              end) * Cart.quantity item)
    items 0.

Definition cart (current_user : Z) (st : state) : result :=
  match filter_by [("user_id", VInt current_user)] (tbl_cart (db st)) with
  | inl e => Result (server_error e) [] st
  | inr cart_items =>
      Result (render_template "cart.html"
                (ctx_cart cart_items (cart_view_total (db st) cart_items)))
             [] st
  end.

Definition cart_remove (item_id : Z) (current_user : Z) (st : state) : result :=
  match filter_by [("item_id", VInt item_id);
                   ("user_id", VInt current_user)] (tbl_cart (db st)) with
  | inl e => Result (server_error e) [] st
  | inr rows =>
      match first rows with
      | None => Result (abort 404) [] st              (* first_or_404 *)
      | Some item =>
          Result (redirect (Endpoint "cart"))
                 [("Item removed from your cart.", "info")]
                 (State (with_cart (db st)
                           (filter (λ r, Cart.id r ≠ Cart.id item)
                                   (tbl_cart (db st))))
                        (session st))
      end
  end.

(** ** Checkout *)

(** The total of the confirm and checkout steps:
    [sum((item.product.price or 0) * item.quantity for item in cart_items)];
    [item.product.price] raises when [item.product] is [None]. *)
Fixpoint checkout_total (d : database) (acc : Z) (items : list Cart.t)
    : exn + Z :=
  match items with
  | [] => inr acc
  | item :: rest =>
      match Cart_product d item with
      | None => inl AttributeError
      | Some p =>
          checkout_total d
            (acc + Py.or_num (Product.price p) 0 * Cart.quantity item) rest
      end
  end.

Definition cart_confirm (req : request) (current_user : Z) (st : state)
    : result :=
  match filter_by [("user_id", VInt current_user)] (tbl_cart (db st)) with
  | inl e => Result (server_error e) [] st
  | inr [] =>
      Result (redirect (Endpoint "cart")) [("Your cart is empty!", "warning")] st
  | inr cart_items =>
      match checkout_total (db st) 0 cart_items with
      | inl e => Result (server_error e) [] st
      | inr total =>
          match method req with
          | POST =>
              let payment_method := form req !! "payment_method" in
              if bool_decide (payment_method = Some "card")
                 || bool_decide (payment_method = Some "cod")
              then
                Result (redirect (Endpoint "cart_checkout"))
                       [("Payment method selected.", "info")]
                       (State (db st)
                          (<["payment_method" := default "" payment_method]>
                             (session st)))
              else
                Result (redirect (Endpoint "cart_confirm"))
                       [("Please select a payment method.", "danger")] st
          | GET =>
              Result (render_template "confirm_order.html"
                        (ctx_confirm current_user cart_items total))
                     [] st
          end
      end
  end.

(** The loop of [cart_checkout]: one [OrderItem] per cart row, copied
    from the product as it is now, and the cart row deleted. *)
Fixpoint add_order_items (order_id current_user : Z) (items : list Cart.t)
    (d : database) : exn + database :=
  match items with
  | [] => inr d
  | item :: rest =>
      match Cart_product d item with
      | None => inl AttributeError
      | Some p =>
          let order_item :=
            OrderItem.mk (next_id (map OrderItem.id (tbl_order_item d)))
              order_id (Product.id p) current_user
              (Product.name p) (Product.price p) (Cart.quantity item) in
          add_order_items order_id current_user rest
            (with_cart
               (with_order_item d (tbl_order_item d ++ [order_item]))
               (filter (λ r, Cart.id r ≠ Cart.id item) (tbl_cart d)))
      end
  end.

(** [order.status = s] on the row with that key. *)
Definition set_order_status (pk : Z) (s : string) (rows : list Order.t)
    : list Order.t :=
  map (λ o, if Order.id o =? pk
            then Order.mk (Order.id o) (Order.order_number o) (Order.user_id o)
                   (Order.total_amount o) (Order.shipping o) s
            else o) rows.

Definition cart_checkout (uuid4 : Z) (current_user : Z) (st : state)
    : result :=
  let d := db st in
  match filter_by [("user_id", VInt current_user)] (tbl_cart d) with
  | inl e => Result (server_error e) [] st
  | inr [] =>
      Result (redirect (Endpoint "cart")) [("Your cart is empty!", "warning")] st
  | inr cart_items =>
      (* payment_method = session.pop("payment_method", None) *)
      let payment_method := session st !! "payment_method" in
      let sess := delete "payment_method" (session st) in
      match payment_method with
      | None | Some EmptyString =>
          Result (redirect (Endpoint "cart_confirm"))
                 [("Please confirm your order first.", "warning")]
                 (State d sess)
      | Some payment_method =>
          match checkout_total d 0 cart_items with
          | inl e => Result (server_error e) [] (State d sess)
          | inr total =>
              let order :=
                Order.mk (next_id (map Order.id (tbl_order d)))
                  (generate_order_number uuid4) current_user total 0
                  (if String.eqb payment_method "cod"
                   then "Processing" else "Awaiting Payment") in
              (* first commit; order_number is UNIQUE *)
              if bool_decide (Order.order_number order
                                ∈ map Order.order_number (tbl_order d))
              then Result (server_error IntegrityError) [] (State d sess)
              else
                let d1 := with_order d (tbl_order d ++ [order]) in
                match add_order_items (Order.id order) current_user
                        cart_items d1 with
                | inl e => Result (server_error e) [] (State d1 sess)
                | inr d2 =>
                    if String.eqb payment_method "cod" then
                      Result
                        (redirect (EndpointFor "order_confirmation"
                                     (Order.id order)))
                        [("Order placed successfully! You will pay upon delivery.",
                          "success")]
                        (State d2 sess)
                    else if String.eqb payment_method "card" then
                      Result
                        (redirect (EndpointFor "order_confirmation"
                                     (Order.id order)))
                        [("Payment successful! Your order has been placed.",
                          "success")]
                        (State (with_order d2
                                  (set_order_status (Order.id order) "Paid"
                                     (tbl_order d2)))
                               sess)
                    else
                      Result (redirect (Endpoint "cart"))
                             [("Unexpected error occurred during checkout.",
                               "danger")]
                             (State d2 sess)
                end
          end
      end
  end.

Definition order_confirmation (order_id : Z) (current_user : Z) (st : state)
    : result :=
  match Order_get order_id (db st) with
  | None => Result (abort 404) [] st                  (* get_or_404 *)
  | Some order => Result (render_template "order.html" (ctx_order order)) [] st
  end.

(** ** Password reset *)

Section VerifyCode.

(** [datetime.fromisoformat]; [None] stands for [ValueError].  A
    timestamp is a number of microseconds. *)
Variable fromisoformat : string → option Z.

Definition verify_code (now : Z) (req : request) (st : state) : result :=
  match method req with
  | POST =>
      let code := Py.strip (default "" (form req !! "code")) in
      let saved_code := session st !! "reset_code" in
      let expiry_str := session st !! "reset_expiry" in
      if negb (Py.truthy_opt saved_code) || negb (Py.truthy_opt expiry_str)
      then
        Result (redirect (Endpoint "forgot_password"))
               [("No code found. Please request a new one.", "danger")] st
      else
        match fromisoformat (default "" expiry_str) with
        | None => Result (server_error ValueError) [] st
        | Some expiry =>
            if expiry <? now then
              Result (redirect (Endpoint "forgot_password"))
                     [("Your verification code has expired. Please request a new one.",
                       "danger")] st
            else if negb (bool_decide (Some code = saved_code)) then
              Result (redirect (Endpoint "verify_code"))
                     [("Invalid verification code. Please try again.",
                       "warning")] st
            else
              Result (redirect (Endpoint "reset_password"))
                     [("Code verified. Please set a new password.",
                       "success")] st
        end
  | GET => Result (render_template "verify_code.html" ctx_none) [] st
  end.

End VerifyCode.

Section ResetPassword.

(** [werkzeug.security.generate_password_hash], as a function of the salt
    it draws and of the password. *)
Variable generate_password_hash : string → string → string.

(** [user.set_password(new)] followed by the commit. *)
Definition set_password (salt : string) (user : User.t) (password : string)
    (rows : list User.t) : list User.t :=
  map (λ r, if User.id r =? User.id user
            then User.mk (User.id r) (User.email r)
                   (generate_password_hash salt password)
            else r) rows.

Definition reset_password (salt : string) (req : request) (st : state)
    : result :=
  match session st !! "reset_email" with
  | None | Some EmptyString =>
      Result (redirect (Endpoint "forgot_password"))
             [("Session expired. Please restart the password reset process.",
               "danger")] st
  | Some email =>
      match filter_by [("email", VStr email)] (tbl_user (db st)) with
      | inl e => Result (server_error e) [] st
      | inr rows =>
          match first rows with
          | None => Result (abort 404) [] st          (* first_or_404 *)
          | Some user =>
              match method req with
              | POST =>
                  match form req !! "newPassword",
                        form req !! "confirmPassword" with
                  | Some new, Some confirm =>
                      if negb (Py.truthy new) || negb (String.eqb new confirm)
                      then
                        Result (redirect (Url (url req)))
                               [("Passwords do not match.", "warning")] st
                      else
                        Result (redirect (Endpoint "login"))
                               [("Your password has been reset successfully. Please log in.",
                                 "success")]
                               (State
                                  (with_user (db st)
                                     (set_password salt user new
                                        (tbl_user (db st))))
                                  (delete "reset_expiry"
                                     (delete "reset_code"
                                        (delete "reset_email" (session st)))))
                  | _, _ => Result (abort 400) [] st  (* missing form key *)
                  end
              | GET =>
                  Result (render_template "reset_password.html" (ctx_user user))
                         [] st
              end
          end
      end
  end.

End ResetPassword.

(** ** Vocabulary of the design document *)

(** The cart rows of a user, and those for one product. *)
Definition user_cart (u : Z) (d : database) : list Cart.t :=
  filter (λ r, Cart.user_id r = u) (tbl_cart d).

Definition cart_rows (u p : Z) (d : database) : list Cart.t :=
  filter (λ r, Cart.user_id r = u ∧ Cart.product_id r = p) (tbl_cart d).

(** At most one cart row per (user, product) pair. *)
Definition cart_unique (d : database) : Prop :=
  ∀ u p, (length (cart_rows u p d) ≤ 1)%nat.

(** [cart_total(items)] as the design document words it: the sum over the
    items of (the price of the product if it is still resolvable, else 0)
    times the quantity. *)
Definition line_total (d : database) (item : Cart.t) : Z :=
  match Cart_product d item with
  | Some p => Product.price p * Cart.quantity item
  | None => 0
  end.

Definition cart_total (d : database) (items : list Cart.t) : Z :=
  foldr (λ item s, line_total d item + s) 0 items.

(** The merge of two additions as the design document words it, for any
    two quantities: from a cart without a row for the pair, exactly one
    row, of quantity [q1 + q2]. *)
Definition merges_any_quantities (int : string → option Z)
    (req1 req2 : request) (p u q1 q2 : Z) (st : state) : Prop :=
  request_quantity int req1 = Some q1 →
  request_quantity int req2 = Some q2 →
  cart_rows u p (db st) = [] →
  ∃ row,
    cart_rows u p
      (db (after (cart_add int req2 p u (after (cart_add int req1 p u st)))))
    = [row]
    ∧ Cart.quantity row = q1 + q2.

(** An order item is a snapshot of a cart row and of its product. *)
Definition snapshot_of (d : database) (order_id u : Z) (item : Cart.t)
    (oi : OrderItem.t) : Prop :=
  ∃ p, Cart_product d item = Some p ∧
       OrderItem.order_id oi = order_id ∧
       OrderItem.user_id oi = u ∧
       OrderItem.product_id oi = Product.id p ∧
       OrderItem.product_name oi = Product.name p ∧
       OrderItem.unit_price oi = Product.price p ∧
       OrderItem.quantity oi = Cart.quantity item.

(** ['ORD-'] followed by ten characters among [0-9A-F]. *)
Definition upper_hex (c : ascii) : Prop :=
  c ∈ list_ascii_of_string "0123456789ABCDEF".

Definition order_number_format (s : string) : Prop :=
  ∃ t, s = "ORD-" +:+ t ∧ String.length t = 10%nat ∧
       Forall upper_hex (list_ascii_of_string t).

(** The acceptance rule of the reset code with the submitted text compared
    as it was typed. *)
Definition accepted_iff_exact_match (fromisoformat : string → option Z)
    (now : Z) (req : request) (st : state) : Prop :=
  resp (verify_code fromisoformat now req st)
    = redirect (Endpoint "reset_password")
  ↔ ∃ saved expiry_str expiry,
      session st !! "reset_code" = Some saved ∧
      session st !! "reset_expiry" = Some expiry_str ∧
      fromisoformat expiry_str = Some expiry ∧
      default "" (form req !! "code") = saved ∧ now ≤ expiry.

(** ** Sample data *)

Module Sample.

Definition lamp := Product.mk 1 "Lamp" 1000.
Definition mug := Product.mk 2 "Mug" 500.
Definition ann := User.mk 1 "ann@example.com" "pbkdf2$old$ann".
Definition bob := User.mk 2 "bob@example.com" "pbkdf2$old$bob".

(** Ann holds two lamps and a mug, Bob four lamps. *)
Definition shop : database :=
  Database [ann; bob] [lamp; mug]
    [Cart.mk 1 1 1 2; Cart.mk 2 1 2 1; Cart.mk 3 2 1 4] [] [].

(** Nobody has anything in the cart. *)
Definition idle_shop : database := Database [ann; bob] [lamp; mug] [] [] [].

(** Ann holds two lamps. *)
Definition lamp_shop : database :=
  Database [ann; bob] [lamp; mug] [Cart.mk 1 1 1 2] [] [].

(** Ann's cart also refers to product 99, which does not exist. *)
Definition dangling_shop : database :=
  Database [ann; bob] [lamp; mug] [Cart.mk 1 1 1 2; Cart.mk 2 1 99 1] [] [].

(** Bob owns order 7. *)
Definition shop_with_order : database :=
  Database [ann; bob] [lamp; mug] []
    [Order.mk 7 "ORD-00000000AB" 2 4000 0 "Paid"] [].

Definition paying (m : string) (d : database) : state :=
  State d {["payment_method" := m]}.

Definition post (fields : list (string * string)) : request :=
  Request POST (list_to_map fields) None "/".

Definition uuid : Z := 0x1f2e3d4c5b6a79880123456789abcdef.

(** [int] on the digit strings used below. *)
Definition int (s : string) : option Z :=
  if String.eqb s "2" then Some 2
  else if String.eqb s "3" then Some 3
  else None.

(** [datetime.fromisoformat] on the one timestamp used below, in
    microseconds since 1970. *)
Definition fromisoformat (s : string) : option Z :=
  if String.eqb s "2024-01-01T00:10:00" then Some 1704067800000000 else None.

(** Five minutes before that expiry, and one minute after it. *)
Definition on_time : Z := 1704067500000000.
Definition too_late : Z := 1704067860000000.

Definition challenged : state :=
  State shop
    (<["reset_email" := "ann@example.com"]>
       (<["reset_code" := "123456"]>
          {["reset_expiry" := "2024-01-01T00:10:00"]})).

(** A session that holds the e-mail address only. *)
Definition unverified : state := State shop {["reset_email" := "ann@example.com"]}.

Definition generate_password_hash (salt password : string) : string :=
  "pbkdf2$" +:+ salt +:+ "$" +:+ password.

End Sample.

Module SampleLimits.

(** A quantity of 2^62, as the form carries it; twice that is 2^63. *)
Definition huge : string := "4611686018427387904".

Definition int (s : string) : option Z :=
  if String.eqb s huge then Some (2 ^ 62) else Sample.int s.

End SampleLimits.

(** ** Accounts *)

Section Accounts.

Variable generate_password_hash : string → string → string.

(** [werkzeug.security.check_password_hash hash password] *)
Variable check_password_hash : string → string → bool.

(** [a or b] on strings read with [request.form.get]: the first one that
    is present and not empty. *)
Definition or_else (a : option string) (b : string) : string :=
  match a with
  | Some (String c r) => String c r
  | _ => b
  end.

(** The form keys [register] reads with [request.form[...]] to fill the
    profile columns; a missing one ends the request with 400. *)
Definition profile_keys : list string :=
  ["firstName"; "lastName"; "phone"; "country"; "province"; "city";
   "address"; "zip"].

Definition register (salt : string) (req : request) (st : state) : result :=
  match method req with
  | POST =>
      match form req !! "email" with
      | None => Result (abort 400) [] st
      | Some EmptyString =>
          Result (redirect (Endpoint "register"))
                 [("Email is required", "danger")] st
      | Some email =>
          match filter_by [("email", VStr email)] (tbl_user (db st)) with
          | inl e => Result (server_error e) [] st
          | inr rows =>
              match first rows with
              | Some _ =>
                  Result (redirect (Endpoint "register"))
                         [("Email already registered", "warning")] st
              | None =>
                  if forallb (λ k, bool_decide (is_Some (form req !! k)))
                             profile_keys
                  then
                    let password :=
                      or_else (form req !! "password")
                        (or_else (form req !! "pwd") "changeme") in
                    let user :=
                      User.mk (next_id (map User.id (tbl_user (db st))))
                        email (generate_password_hash salt password) in
                    Result (redirect (Endpoint "login"))
                           [("Registered. Please log in.", "success")]
                           (State (with_user (db st) (tbl_user (db st) ++ [user]))
                                  (session st))
                  else Result (abort 400) [] st
              end
          end
      end
  | GET => Result (render_template "register.html" ctx_none) [] st
  end.

(** [login]; [login_user(user)] records the key of the user in the
    session under ["_user_id"], as text. *)
Definition login (req : request) (st : state) : result :=
  match method req with
  | POST =>
      match form req !! "email", form req !! "password" with
      | Some typed, Some password =>
          let email := Py.lower (Py.strip typed) in
          match filter_by [("email", VStr email)] (tbl_user (db st)) with
          | inl e => Result (server_error e) [] st
          | inr rows =>
              match first rows with
              | Some user =>
                  if check_password_hash (User.password_hash user) password
                  then
                    Result (redirect (Endpoint "index"))
                           [("Logged in successfully.", "success")]
                           (State (db st)
                              (<["_user_id" := Py.str (User.id user)]>
                                 (session st)))
                  else
                    Result (redirect (Endpoint "login"))
                           [("Invalid credentials", "danger")] st
              | None =>
                  Result (redirect (Endpoint "login"))
                         [("Invalid credentials", "danger")] st
              end
          end
      | _, _ => Result (abort 400) [] st
      end
  | GET => Result (render_template "signin.html" ctx_none) [] st
  end.

End Accounts.

(** [User.query.get(pk)] *)
Definition User_get (pk : Z) (d : database) : option User.t :=
  head (filter (λ r, User.id r = pk) (tbl_user d)).

Section CurrentUser.

Variable int : string → option Z.

(** [load_user]: [User.query.get(int(user_id))]. *)
Definition load_user (user_id : string) (d : database) : exn + option User.t :=
  match int user_id with
  | None => inl ValueError
  | Some pk => inr (User_get pk d)
  end.

(** The user a request runs as: the one [load_user] finds for the key in
    the session, if any; an exception of [load_user] escapes. *)
Definition current_user (st : state) : exn + option User.t :=
  match session st !! "_user_id" with
  | None => inr None
  | Some user_id => load_user user_id (db st)
  end.

End CurrentUser.

(** [logout], behind [@login_required]; [logout_user()] forgets the key. *)
Definition logout (current_user : Z) (st : state) : result :=
  Result (redirect (Endpoint "index")) [("Logged out", "info")]
         (State (db st) (delete "_user_id" (session st))).

(** ** Requesting a reset code *)

(** What [send_email] is asked to deliver. *)
Record email_message := EmailMessage {
  subject : string;
  recipient : string;
  body_text : string }.

(** Ten minutes, in microseconds. *)
Definition ten_minutes : Z := 10 * 60 * 1000000.

Definition reset_mail_body (code : string) : string :=
  "Your password reset code is: " +:+ code +:+ "

            This code will expire in 10 minutes.
            If you did not request this, please ignore this email.".

Section ForgotPassword.

(** [datetime.isoformat] *)
Variable isoformat : Z → string.

(** [forgot_password], on the number [random.randint(100000, 999999)]
    drew and on the time [datetime.utcnow()] read; beside the result, the
    messages handed to [send_email]. *)
Definition forgot_password (drawn now : Z) (req : request) (st : state)
    : result * list email_message :=
  match method req with
  | POST =>
      match form req !! "email" with
      | None => (Result (abort 400) [] st, [])
      | Some email =>
          match filter_by [("email", VStr email)] (tbl_user (db st)) with
          | inl e => (Result (server_error e) [] st, [])
          | inr rows =>
              let notice :=
                [("If an account exists, a verification code has been sent to your email.",
                  "info")] in
              match first rows with
              | Some user =>
                  let code := Py.str drawn in
                  (Result (redirect (Endpoint "verify_code")) notice
                     (State (db st)
                        (<["reset_expiry" := isoformat (now + ten_minutes)]>
                           (<["reset_code" := code]>
                              (<["reset_email" := email]> (session st))))),
                   [EmailMessage "MyShop Password Reset Code" (User.email user)
                      (reset_mail_body code)])
              | None =>
                  (Result (redirect (Endpoint "verify_code")) notice st, [])
              end
          end
      end
  | GET => (Result (render_template "forgot_password.html" ctx_none) [] st, [])
  end.

End ForgotPassword.

(** ** The bulk quantity form *)

Section CartUpdate.

Variable int : string → option Z.

(** One turn of the loop of [cart_update] over [request.form.items()].
    The index 1 of the split exists for every key that starts with
    ["qty_"]. *)
Definition cart_update_step (key val : string) (cart : gmap string Z)
    : gmap string Z :=
  if Py.startswith "qty_" key then
    let pid := default "" (Py.split1 "_" key !! 1%nat) in
    match int val with
    | Some q => if 0 <? q then <[pid := q]> cart else cart
    | None => cart                                   (* except: pass *)
    end
  else cart.

(** The dictionary [cart_update] builds from the form. *)
Definition cart_update_dict (fields : gmap string string) : gmap string Z :=
  map_fold cart_update_step ∅ fields.

(** [cart_update]; the dictionary it stores under [session["cart"]] is
    given beside the result, the other keys of the session are as
    before. *)
Definition cart_update (req : request) (st : state)
    : result * gmap string Z :=
  (Result (redirect (Endpoint "cart")) [("Cart updated", "success")] st,
   cart_update_dict (form req)).

End CartUpdate.

(** The password [register] hashes: the field ["password"], else the
    field ["pwd"], else the text ['changeme']. *)
Definition registered_password (req : request) : string :=
  or_else (form req !! "password") (or_else (form req !! "pwd") "changeme").

(** An address as [login] looks it up. *)
Definition normalized (email : string) : string := Py.lower (Py.strip email).

(** ** Stored invariants *)

(** The hexadecimal digit of weight [16^i] of a UUID. *)
Definition nibble (u : Z) (i : nat) : Z :=
  Z.land (Z.shiftr u (4 * Z.of_nat i)) 15.

(** Primary keys are unique in every table the handlers write. *)
Definition primary_keys (d : database) : Prop :=
  NoDup (map User.id (tbl_user d))
  ∧ NoDup (map Cart.id (tbl_cart d))
  ∧ NoDup (map Order.id (tbl_order d))
  ∧ NoDup (map OrderItem.id (tbl_order_item d)).

(** The two UNIQUE columns: [User.email] and [Order.order_number]. *)
Definition unique_columns (d : database) : Prop :=
  NoDup (map User.email (tbl_user d))
  ∧ NoDup (map Order.order_number (tbl_order d)).

(** The session holds no payment method, or one of the two that
    [cart_confirm] accepts. *)
Definition payment_method_ok (s : gmap string string) : Prop :=
  s !! "payment_method" = None
  ∨ s !! "payment_method" = Some "card"
  ∨ s !! "payment_method" = Some "cod".

Module SampleAccounts.

(** A password matches a hash made from it, whatever the salt was. *)
Definition check_password_hash (hash password : string) : bool :=
  existsb (λ salt, String.eqb hash
                     (Sample.generate_password_hash salt password))
          ["s1"; "old"].

(** [datetime.isoformat] on the one timestamp used below. *)
Definition isoformat (t : Z) : string :=
  if t =? 1704067800000000 then "2024-01-01T00:10:00" else "".

(** Midnight, ten minutes before the expiry of [Sample.fromisoformat]. *)
Definition midnight : Z := 1704067200000000.

Definition signup (email : string) (more : list (string * string)) : request :=
  Sample.post
    ([("email", email); ("firstName", "Cy"); ("lastName", "Doe");
      ("phone", "1"); ("country", "c"); ("province", "p"); ("city", "t");
      ("address", "a"); ("zip", "z")] ++ more).

End SampleAccounts.

(** * Properties *)

(** Closes the cases of [verify_code] in which the session holds no usable
    challenge. *)
Local Ltac no_challenge :=
  split_and!;
  [ split; [done|]; intros (? & ? & ? & ? & ? & ? & ? & ? & ? & ?); congruence
  | first [done | by intros [|]]
  | intros; congruence
  | done ].

(** ** Strings *)

Example strip_examples :
  Py.strip "  123456 " = "123456"
  ∧ Py.strip "12 34" = "12 34"
  ∧ Py.strip "   " = ""
  ∧ Py.upper "1f2e3d4c5b" = "1F2E3D4C5B".
Proof. split_and!; reflexivity. Qed.

(** ** Queries *)

Lemma filter_by_user_id (u : Z) (rows : list Cart.t) :
  filter_by [("user_id", VInt u)] rows
  = inr (filter (λ r, Cart.user_id r = u) rows).
Proof.
  cbn. f_equal. apply list_filter_iff. intros r. split; congruence.
Qed.

Lemma filter_by_user_product (u p : Z) (rows : list Cart.t) :
  filter_by [("user_id", VInt u); ("product_id", VInt p)] rows
  = inr (filter (λ r, Cart.user_id r = u ∧ Cart.product_id r = p) rows).
Proof.
  cbn. f_equal. rewrite list_filter_filter.
  apply list_filter_iff. intros r. split.
  - intros [? ?]. split; congruence.
  - intros [-> ->]. done.
Qed.

Lemma filter_by_email (e : string) (rows : list User.t) :
  filter_by [("email", VStr e)] rows
  = inr (filter (λ r, User.email r = e) rows).
Proof.
  cbn. f_equal. apply list_filter_iff. intros r. split; congruence.
Qed.

(** [Cart] has no column called [item_id]. *)
Lemma filter_by_item_id (i u : Z) (rows : list Cart.t) :
  filter_by [("item_id", VInt i); ("user_id", VInt u)] rows
  = inl InvalidRequestError.
Proof. reflexivity. Qed.

Lemma head_filter_None {A} (P : A → Prop) `{∀ x, Decision (P x)} (l : list A) :
  head (filter P l) = None ↔ ∀ x, x ∈ l → ¬ P x.
Proof.
  rewrite head_None. split.
  - intros Hnil x Hx HP.
    assert (x ∈ filter P l) as Hin by (apply list_elem_of_filter; done).
    rewrite Hnil in Hin. by apply not_elem_of_nil in Hin.
  - intros Hno. destruct (filter P l) as [|y l'] eqn:E; [done|].
    assert (y ∈ filter P l) as Hin by (rewrite E; left).
    apply list_elem_of_filter in Hin as [HP Hy]. by destruct (Hno y Hy).
Qed.

Lemma head_filter_Some {A} (P : A → Prop) `{∀ x, Decision (P x)} (l : list A) x :
  head (filter P l) = Some x → P x ∧ x ∈ l.
Proof.
  intros Hh. apply head_Some_elem_of in Hh.
  by apply list_elem_of_filter in Hh.
Qed.

(** ** Keys *)

Lemma next_id_above (ids : list Z) (i : Z) : i ∈ ids → i < next_id ids.
Proof.
  unfold next_id. induction ids as [|j ids IH]; intros Hin.
  - by apply not_elem_of_nil in Hin.
  - apply elem_of_cons in Hin as [->|Hin]; cbn; [lia|].
    specialize (IH Hin). lia.
Qed.

(** ** C3: an empty cart stops both checkout steps *)

(** C3.  When the user's cart is empty, both the confirm step and the
    commit step answer with a redirect to the cart view and the warning
    "Your cart is empty!", and leave the store and the session as they
    were: no order and no order item is created. *)
Theorem empty_cart_never_reaches_order (req : request) (uuid4 u : Z) (st : state) :
  user_cart u (db st) = [] →
  cart_confirm req u st
    = Result (redirect (Endpoint "cart")) [("Your cart is empty!", "warning")] st
  ∧ cart_checkout uuid4 u st
    = Result (redirect (Endpoint "cart")) [("Your cart is empty!", "warning")] st
  ∧ tbl_order (db (after (cart_confirm req u st))) = tbl_order (db st)
  ∧ tbl_order_item (db (after (cart_confirm req u st))) = tbl_order_item (db st)
  ∧ tbl_order (db (after (cart_checkout uuid4 u st))) = tbl_order (db st)
  ∧ tbl_order_item (db (after (cart_checkout uuid4 u st))) = tbl_order_item (db st).
Proof.
  unfold user_cart. intros Hempty.
  unfold cart_confirm, cart_checkout.
  rewrite filter_by_user_id, Hempty. cbn. done.
Qed.

Lemma empty_cart_never_reaches_order_witness :
  user_cart 1 (db (Sample.paying "cod" Sample.idle_shop)) = []
  ∧ cart_checkout Sample.uuid 1 (Sample.paying "cod" Sample.idle_shop)
    = Result (redirect (Endpoint "cart")) [("Your cart is empty!", "warning")]
        (Sample.paying "cod" Sample.idle_shop).
Proof.
  split; [reflexivity|].
  apply (empty_cart_never_reaches_order
           (Sample.post [("payment_method", "cod")]) Sample.uuid 1
           (Sample.paying "cod" Sample.idle_shop)).
  reflexivity.
Defined.

(** ** C8: removing a cart row *)

(** C8.  [cart_remove] filters on [item_id], a name the [Cart] entity does
    not have (its key is [id]): the query raises before any row is
    looked at.  Whatever the user and the id, the answer is the 500 page
    and nothing is deleted, also when the row exists and is the user's. *)
Theorem cart_remove_raises (item_id u : Z) (st : state) :
  cart_remove item_id u st = Result (server_error InvalidRequestError) [] st.
Proof. unfold cart_remove. by rewrite filter_by_item_id. Qed.

(** Ann asks to remove row 1 of her own cart. *)
Example cart_remove_own_row :
  Cart.mk 1 1 1 2 ∈ user_cart 1 Sample.shop
  ∧ resp (cart_remove 1 1 (State Sample.shop ∅)) = server_error InvalidRequestError
  ∧ tbl_cart (db (after (cart_remove 1 1 (State Sample.shop ∅))))
    = tbl_cart Sample.shop.
Proof. split; [|done]. vm_compute. left. Qed.

(** ** C10: the order view *)


(** Ann (user 1) opens Bob's order 7. *)
Example order_confirmation_other_user :
  login_required (order_confirmation 7) (Some 1) (State Sample.shop_with_order ∅)
  = Result (render_template "order.html"
              (ctx_order (Order.mk 7 "ORD-00000000AB" 2 4000 0 "Paid")))
           [] (State Sample.shop_with_order ∅).
Proof. reflexivity. Qed.

(** ** C6: the cart total *)

Lemma cart_view_total_acc (d : database) (items : list Cart.t) (acc : Z) :
  fold_left
    (λ acc item,
       acc + (match Cart_product d item with
              | Some p => Product.price p
              | None => 0
              end) * Cart.quantity item)
    items acc
  = acc + cart_total d items.
Proof.
  revert acc. induction items as [|item items IH]; intros acc;
    cbn [fold_left cart_total foldr].
  - lia.
  - rewrite IH. fold (cart_total d items). unfold line_total.
    destruct (Cart_product d item); lia.
Qed.

(** The cart view computes the documented total, dangling rows included. *)
Lemma cart_view_total_spec (d : database) (items : list Cart.t) :
  cart_view_total d items = cart_total d items.
Proof. unfold cart_view_total. by rewrite cart_view_total_acc. Qed.

Lemma cart_renders_cart_total (u : Z) (st : state) :
  cart u st
  = Result (render_template "cart.html"
              (ctx_cart (user_cart u (db st))
                        (cart_total (db st) (user_cart u (db st))))) [] st.
Proof.
  unfold cart. rewrite filter_by_user_id.
  by rewrite cart_view_total_spec.
Qed.

Lemma or_num_0 (x : Z) : Py.or_num x 0 = x.
Proof. unfold Py.or_num. destruct (Z.eqb_spec x 0); congruence. Qed.

(** The confirm and checkout total is the documented one when every
    product resolves, and an exception as soon as one does not. *)
Lemma checkout_total_resolved (d : database) (items : list Cart.t) (acc : Z) :
  Forall (λ item, is_Some (Cart_product d item)) items →
  checkout_total d acc items = inr (acc + cart_total d items).
Proof.
  revert acc. induction items as [|item items IH]; intros acc Hall;
    cbn [checkout_total cart_total foldr].
  - f_equal. lia.
  - apply Forall_cons in Hall as [[p Hp] Hall].
    fold (cart_total d items).
    rewrite Hp, (IH _ Hall), or_num_0. unfold line_total. rewrite Hp.
    f_equal. lia.
Qed.

Lemma checkout_total_dangling (d : database) (items : list Cart.t) (acc : Z) :
  ¬ Forall (λ item, is_Some (Cart_product d item)) items →
  checkout_total d acc items = inl AttributeError.
Proof.
  revert acc. induction items as [|item items IH]; intros acc Hnot; cbn.
  - destruct Hnot. constructor.
  - destruct (Cart_product d item) as [p|] eqn:Hp; [|done].
    apply IH. intros Hall. apply Hnot. constructor; [by exists p|done].
Qed.

Lemma checkout_total_inr (d : database) (items : list Cart.t) (total : Z) :
  checkout_total d 0 items = inr total →
  Forall (λ item, is_Some (Cart_product d item)) items
  ∧ total = cart_total d items.
Proof.
  intros Htot.
  destruct (decide (Forall (λ item, is_Some (Cart_product d item)) items))
    as [Hall|Hnot].
  - rewrite (checkout_total_resolved _ _ _ Hall) in Htot.
    split; [done|]. injection Htot as <-. lia.
  - by rewrite (checkout_total_dangling _ _ _ Hnot) in Htot.
Qed.

(** C6.  Ann adds product 99, which does not exist, to a cart that holds
    two lamps at 1000.  The cart view shows the total 2000, counting the
    dangling row as zero; the confirm step and the commit step raise
    [AttributeError] on [item.product.price] and answer with the 500 page
    instead of computing that total. *)
Theorem dangling_product_breaks_checkout_total :
  db (after (cart_add Sample.int (Sample.post []) 99 1
               (State Sample.lamp_shop ∅)))
    = Sample.dangling_shop
  ∧ Cart_product Sample.dangling_shop (Cart.mk 2 1 99 1) = None
  ∧ cart_total Sample.dangling_shop (user_cart 1 Sample.dangling_shop) = 2000
  ∧ resp (cart 1 (Sample.paying "cod" Sample.dangling_shop))
    = render_template "cart.html"
        (ctx_cart [Cart.mk 1 1 1 2; Cart.mk 2 1 99 1] 2000)
  ∧ resp (cart_confirm (Request GET ∅ None "/cart/confirm") 1
            (State Sample.dangling_shop ∅))
    = server_error AttributeError
  ∧ resp (cart_checkout Sample.uuid 1 (Sample.paying "cod" Sample.dangling_shop))
    = server_error AttributeError.
Proof. split_and!; reflexivity. Qed.

(** ** C7: verifying the reset code *)

(** C7 (amended).  On a POST, the code is accepted exactly when the
    session holds a non-empty code and a non-empty expiry, the submitted
    text equals the stored code once leading and trailing whitespace is
    stripped, and the current time is not past the expiry.  When code or
    expiry is missing the user is sent back to the request step, and so
    when the expiry has passed; on a mismatch alone the user is sent back
    to the verification step.  The session and the store are untouched. *)
Theorem verify_code_accepts_iff (fromisoformat : string → option Z)
    (now : Z) (req : request) (st : state) :
  method req = POST →
  let r := verify_code fromisoformat now req st in
  let code := Py.strip (default "" (form req !! "code")) in
  (resp r = redirect (Endpoint "reset_password")
     ↔ ∃ saved expiry_str expiry,
         session st !! "reset_code" = Some saved ∧ saved ≠ "" ∧
         session st !! "reset_expiry" = Some expiry_str ∧ expiry_str ≠ "" ∧
         fromisoformat expiry_str = Some expiry ∧
         code = saved ∧ now ≤ expiry)
  ∧ (Py.truthy_opt (session st !! "reset_code") = false
     ∨ Py.truthy_opt (session st !! "reset_expiry") = false →
     resp r = redirect (Endpoint "forgot_password"))
  ∧ (∀ saved expiry_str expiry,
       session st !! "reset_code" = Some saved → saved ≠ "" →
       session st !! "reset_expiry" = Some expiry_str → expiry_str ≠ "" →
       fromisoformat expiry_str = Some expiry →
       (expiry < now → resp r = redirect (Endpoint "forgot_password"))
       ∧ (now ≤ expiry → code ≠ saved →
          resp r = redirect (Endpoint "verify_code")))
  ∧ after r = st.
Proof.
  intros Hpost r code. subst r. unfold verify_code. rewrite Hpost.
  fold code.
  destruct (session st !! "reset_code") as [[|c saved]|] eqn:Hsaved;
    [cbn; no_challenge| |cbn; no_challenge].
  destruct (session st !! "reset_expiry") as [[|c' es]|] eqn:Hes;
    [cbn; no_challenge| |cbn; no_challenge].
  cbn [Py.truthy_opt Py.truthy negb orb default from_option id].
  destruct (fromisoformat (String c' es)) as [expiry|] eqn:Hparse;
    [|cbn; no_challenge].
  destruct (Z.ltb_spec expiry now) as [Hlate|Hok].
  { cbn. split_and!; [|by intros [|]| |done].
    - split; [done|].
      intros (? & ? & e & _ & _ & [= <-] & _ & Hp & _ & Hle).
      rewrite Hparse in Hp. injection Hp as <-. lia.
    - intros ? ? e _ _ [= <-] _ Hp. rewrite Hparse in Hp.
      injection Hp as <-. split; [done|lia]. }
  destruct (decide (Some code = Some (String c saved))) as [Heq|Hne].
  - rewrite bool_decide_eq_true_2 by done. cbn.
    injection Heq as Heq. split_and!; [|by intros [|]| |done].
    + split; [|done]. intros _.
      exists (String c saved), (String c' es), expiry. done.
    + intros ? ? e [= <-] _ [= <-] _ Hp. rewrite Hparse in Hp.
      injection Hp as <-. split; [lia|]. intros _ Hdiff. done.
  - rewrite bool_decide_eq_false_2 by done. cbn.
    split_and!; [|by intros [|]| |done].
    + split; [done|]. intros (? & ? & ? & [= <-] & _ & _ & _ & _ & Hcode & _).
      destruct Hne. by rewrite Hcode.
    + intros ? ? e _ _ [= <-] _ Hp. rewrite Hparse in Hp.
      injection Hp as <-. split; [lia|done].
Qed.

Lemma verify_code_accepts_iff_witness :
  method (Sample.post [("code", "123456 ")]) = POST
  ∧ resp (verify_code Sample.fromisoformat Sample.on_time
            (Sample.post [("code", "123456 ")]) Sample.challenged)
    = redirect (Endpoint "reset_password").
Proof.
  split; [reflexivity|].
  apply (verify_code_accepts_iff Sample.fromisoformat Sample.on_time
           (Sample.post [("code", "123456 ")]) Sample.challenged eq_refl).
  exists "123456", "2024-01-01T00:10:00", 1704067800000000.
  split_and!; try reflexivity; try discriminate.
Defined.

(** C7, as first stated.  The code typed with a leading blank is accepted
    although it differs from the stored code: acceptance is not "if and
    only if the submitted code exactly equals the stored one". *)
Lemma verify_code_not_exact_match :
  ¬ accepted_iff_exact_match Sample.fromisoformat Sample.on_time
      (Sample.post [("code", " 123456")]) Sample.challenged.
Proof.
  intros [Hexact _].
  destruct (Hexact eq_refl) as (saved & es & e & Hs & _ & _ & Hc & _).
  vm_compute in Hs, Hc. congruence.
Qed.

(** After the expiry the right code is refused and the user sent back to
    the request step. *)
Example verify_code_expired :
  resp (verify_code Sample.fromisoformat Sample.too_late
          (Sample.post [("code", "123456")]) Sample.challenged)
  = redirect (Endpoint "forgot_password").
Proof. reflexivity. Qed.

(** ** C9: setting the new password *)

Lemma filter_fmap_invariant {A} (P : A → Prop) `{∀ x, Decision (P x)}
    (f : A → A) (l : list A) :
  (∀ x, P (f x) ↔ P x) → filter P (f <$> l) = f <$> filter P l.
Proof.
  intros Hf. induction l as [|x l IH]; [done|].
  rewrite fmap_cons, !filter_cons.
  destruct (decide (P (f x))) as [HP|HP], (decide (P x)) as [HP'|HP'].
  - by rewrite fmap_cons, IH.
  - destruct HP'. by apply (proj1 (Hf x)).
  - destruct HP. by apply (proj2 (Hf x)).
  - done.
Qed.

Lemma truthy_String (s : string) : s ≠ "" → Py.truthy s = true.
Proof. by destruct s. Qed.

Lemma reset_keys_deleted (s s' : gmap string string) :
  (∀ k, k ≠ "reset_code" → k ≠ "reset_expiry" → s' !! k = s !! k) →
  delete "reset_expiry" (delete "reset_code" (delete "reset_email" s'))
  = delete "reset_expiry" (delete "reset_code" (delete "reset_email" s)).
Proof.
  intros Hagree. apply map_eq. intros k.
  destruct (decide (k = "reset_expiry")) as [->|Hexp].
  { by rewrite !lookup_delete_eq. }
  rewrite !(lookup_delete_ne _ "reset_expiry") by done.
  destruct (decide (k = "reset_code")) as [->|Hcode].
  { by rewrite !lookup_delete_eq. }
  rewrite !(lookup_delete_ne _ "reset_code") by done.
  destruct (decide (k = "reset_email")) as [->|Hmail].
  { by rewrite !lookup_delete_eq. }
  rewrite !(lookup_delete_ne _ "reset_email") by done.
  by apply Hagree.
Qed.

(** C9.  When the session key [reset_email] holds the address of an
    existing user, a POST whose new password is non-empty and equal to its
    confirmation is answered with a redirect to the login view and stores
    the fresh hash of the new password in that user's row.  The keys
    [reset_code] and [reset_expiry] are not read: any session that agrees
    with this one on every other key, whether it holds a code and an
    expiry or not, yields the same result. *)
Theorem reset_password_gated_on_email_only
    (generate_password_hash : string → string → string)
    (salt : string) (req : request) (st : state)
    (email : string) (user : User.t) (new : string) :
  session st !! "reset_email" = Some email → email ≠ "" →
  first (filter (λ r, User.email r = email) (tbl_user (db st))) = Some user →
  method req = POST →
  form req !! "newPassword" = Some new →
  form req !! "confirmPassword" = Some new →
  new ≠ "" →
  let r := reset_password generate_password_hash salt req st in
  resp r = redirect (Endpoint "login")
  ∧ first (filter (λ r, User.email r = email) (tbl_user (db (after r))))
    = Some (User.mk (User.id user) email (generate_password_hash salt new))
  ∧ (∀ s' : gmap string string,
       (∀ k, k ≠ "reset_code" → k ≠ "reset_expiry" →
             s' !! k = session st !! k) →
       reset_password generate_password_hash salt req (State (db st) s') = r).
Proof.
  intros Hmail Hne Huser Hpost Hnew Hconfirm Hnew_ne r.
  assert (∀ s' : gmap string string,
            s' !! "reset_email" = Some email →
            reset_password generate_password_hash salt req (State (db st) s')
            = Result (redirect (Endpoint "login"))
                [("Your password has been reset successfully. Please log in.",
                  "success")]
                (State
                   (with_user (db st)
                      (set_password generate_password_hash salt user new
                         (tbl_user (db st))))
                   (delete "reset_expiry"
                      (delete "reset_code" (delete "reset_email" s')))))
    as Hrun.
  { intros s' Hs'. unfold reset_password. cbn [session db]. rewrite Hs'.
    destruct email as [|c email]; [done|].
    rewrite filter_by_email, Huser, Hpost, Hnew, Hconfirm.
    rewrite (truthy_String _ Hnew_ne), String.eqb_refl. done. }
  assert (r = reset_password generate_password_hash salt req
                (State (db st) (session st))) as Hr by (by destruct st).
  rewrite Hr, (Hrun _ Hmail). cbn [resp after db tbl_user with_user].
  split_and!.
  - done.
  - unfold set_password, first.
    rewrite (filter_fmap_invariant (λ r, User.email r = email))
      by (intros x; by destruct (User.id x =? User.id user)).
    unfold first in Huser.
    destruct (head_filter_Some _ _ _ Huser) as [Hu _].
    destruct (filter _ (tbl_user (db st))) as [|x rows]; [done|].
    injection Huser as ->. cbn. by rewrite Z.eqb_refl, Hu.
  - intros s' Hagree.
    rewrite Hrun by (rewrite Hagree; done).
    by rewrite (reset_keys_deleted _ _ Hagree).
Qed.

Lemma reset_password_gated_on_email_only_witness :
  session Sample.unverified !! "reset_email" = Some "ann@example.com"
  ∧ session Sample.unverified !! "reset_code" = None
  ∧ first (filter (λ r, User.email r = "ann@example.com")
             (tbl_user (db (after
                (reset_password Sample.generate_password_hash "s1"
                   (Sample.post [("newPassword", "pw"); ("confirmPassword", "pw")])
                   Sample.unverified)))))
    = Some (User.mk 1 "ann@example.com" "pbkdf2$s1$pw").
Proof.
  split_and!; [reflexivity|reflexivity|].
  apply (reset_password_gated_on_email_only Sample.generate_password_hash "s1"
           (Sample.post [("newPassword", "pw"); ("confirmPassword", "pw")])
           Sample.unverified "ann@example.com" Sample.ann "pw");
    first [reflexivity | discriminate].
Defined.

(** The same submission with the challenge still in the session, long
    after its expiry: the handler takes no clock. *)
Example reset_password_after_expiry :
  tbl_user (db (after
    (reset_password Sample.generate_password_hash "s1"
       (Sample.post [("newPassword", "pw"); ("confirmPassword", "pw")])
       Sample.challenged)))
  = [User.mk 1 "ann@example.com" "pbkdf2$s1$pw"; Sample.bob].
Proof. reflexivity. Qed.

(** ** C5: adding to the cart *)

Section CartAddProperties.

Variable int : string → option Z.

Lemma add_quantity_keeps_pair (pk qty u p : Z) (r : Cart.t) :
  Cart.user_id (add_quantity pk qty r) = u
  ∧ Cart.product_id (add_quantity pk qty r) = p
  ↔ Cart.user_id r = u ∧ Cart.product_id r = p.
Proof. unfold add_quantity. by destruct (Cart.id r =? pk). Qed.

Lemma cart_rows_increase (pk qty u p : Z) (d : database) :
  cart_rows u p (with_cart d (increase_quantity pk qty (tbl_cart d)))
  = add_quantity pk qty <$> cart_rows u p d.
Proof.
  unfold cart_rows, increase_quantity. cbn [tbl_cart with_cart].
  apply (filter_fmap_invariant
           (λ r, Cart.user_id r = u ∧ Cart.product_id r = p)).
  intros r. apply add_quantity_keeps_pair.
Qed.

(** What one call does to the cart table: nothing when a parameter of
    the query or the quantity to write does not fit an SQLite INTEGER. *)
Lemma cart_add_tbl_cart (req : request) (p u qty : Z) (st : state) :
  request_quantity int req = Some qty →
  tbl_cart (db (after (cart_add int req p u st)))
  = if sqlite_integer u && sqlite_integer p
       && sqlite_integer (match head (cart_rows u p (db st)) with
                          | Some item => Cart.quantity item + qty
                          | None => qty
                          end)
    then match head (cart_rows u p (db st)) with
         | Some item => increase_quantity (Cart.id item) qty (tbl_cart (db st))
         | None =>
             tbl_cart (db st)
             ++ [Cart.mk (next_id (map Cart.id (tbl_cart (db st)))) u p qty]
         end
    else tbl_cart (db st).
Proof.
  intros Hq. unfold cart_add, cart_rows, first. rewrite Hq.
  destruct (sqlite_integer u && sqlite_integer p); cbn [negb andb]; [|done].
  rewrite filter_by_user_product.
  destruct (head _) as [item|].
  - by destruct (sqlite_integer (Cart.quantity item + qty)).
  - by destruct (sqlite_integer qty).
Qed.

Lemma cart_add_db (req : request) (p u : Z) (st : state) :
  db (after (cart_add int req p u st))
  = with_cart (db st) (tbl_cart (db (after (cart_add int req p u st)))).
Proof.
  unfold cart_add. destruct (request_quantity int req) as [qty|];
    [|by destruct st as [[]]].
  destruct (sqlite_integer u && sqlite_integer p); cbn [negb];
    [|by destruct st as [[]]].
  rewrite filter_by_user_product. unfold first.
  destruct (head _) as [item|].
  - destruct (sqlite_integer (Cart.quantity item + qty)); cbn;
      by destruct (db st).
  - destruct (sqlite_integer qty); cbn; by destruct (db st).
Qed.

Lemma cart_rows_with_cart (u p : Z) (d : database) (rows : list Cart.t) :
  cart_rows u p (with_cart d rows)
  = filter (λ r, Cart.user_id r = u ∧ Cart.product_id r = p) rows.
Proof. done. Qed.

Lemma cart_add_preserves_unique (req : request) (p u : Z) (st : state) :
  cart_unique (db st) → cart_unique (db (after (cart_add int req p u st))).
Proof.
  intros Huniq u' p'.
  destruct (request_quantity int req) as [qty|] eqn:Hq.
  2:{ unfold cart_add. rewrite Hq. apply Huniq. }
  rewrite cart_add_db, (cart_add_tbl_cart _ _ _ _ _ Hq).
  destruct (sqlite_integer u && sqlite_integer p && sqlite_integer _);
    [|apply Huniq].
  destruct (head (cart_rows u p (db st))) as [item|] eqn:Hhead.
  - rewrite cart_rows_increase, length_fmap. apply Huniq.
  - rewrite cart_rows_with_cart, filter_app, length_app.
    apply head_None in Hhead.
    destruct (decide (u' = u ∧ p' = p)) as [[-> ->]|Hother].
    + unfold cart_rows in Hhead. rewrite Hhead. cbn.
      case_decide; cbn; lia.
    + cbn [filter list_filter Cart.user_id Cart.product_id].
      case_decide as Hpair.
      * destruct Hother. by destruct Hpair.
      * specialize (Huniq u' p'). unfold cart_rows in Huniq. cbn. lia.
Qed.

(** A first call for a pair that has no row appends one. *)
Lemma cart_add_first (req : request) (p u qty : Z) (st : state) :
  request_quantity int req = Some qty →
  sqlite_integer u = true → sqlite_integer p = true →
  sqlite_integer qty = true →
  cart_rows u p (db st) = [] →
  cart_rows u p (db (after (cart_add int req p u st)))
  = [Cart.mk (next_id (map Cart.id (tbl_cart (db st)))) u p qty].
Proof.
  intros Hq Hu Hp Hfits Hnone.
  rewrite cart_add_db, cart_rows_with_cart.
  rewrite (cart_add_tbl_cart _ _ _ _ _ Hq), Hnone, Hu, Hp. cbn [head andb].
  rewrite Hfits, filter_app.
  unfold cart_rows in Hnone. rewrite Hnone. cbn.
  by case_decide as Hc; [|destruct Hc].
Qed.

(** A call for a pair that has exactly one row adds to its quantity. *)
Lemma cart_add_again (req : request) (p u qty : Z) (st : state) (item : Cart.t) :
  request_quantity int req = Some qty →
  sqlite_integer u = true → sqlite_integer p = true →
  sqlite_integer (Cart.quantity item + qty) = true →
  cart_rows u p (db st) = [item] →
  cart_rows u p (db (after (cart_add int req p u st)))
  = [Cart.mk (Cart.id item) u p (Cart.quantity item + qty)].
Proof.
  intros Hq Hu Hp Hfits Hone.
  assert (Cart.user_id item = u ∧ Cart.product_id item = p) as [Hiu Hip].
  { assert (item ∈ cart_rows u p (db st)) as Hin by (rewrite Hone; left).
    unfold cart_rows in Hin. by apply list_elem_of_filter in Hin as [? _]. }
  rewrite cart_add_db, (cart_add_tbl_cart _ _ _ _ _ Hq), Hone, Hu, Hp.
  cbn [head andb]. rewrite Hfits, cart_rows_increase, Hone. cbn.
  unfold add_quantity. by rewrite Z.eqb_refl, Hiu, Hip.
Qed.

(** A call whose sum does not fit is answered with the 500 page and
    leaves the state as it was. *)
Lemma cart_add_overflow (req : request) (p u qty : Z) (st : state) (item : Cart.t) :
  request_quantity int req = Some qty →
  sqlite_integer u = true → sqlite_integer p = true →
  sqlite_integer (Cart.quantity item + qty) = false →
  cart_rows u p (db st) = [item] →
  cart_add int req p u st = Result (server_error OverflowError) [] st.
Proof.
  intros Hq Hu Hp Hfits Hone. unfold cart_add.
  rewrite Hq, Hu, Hp. cbn [andb negb].
  rewrite filter_by_user_product. fold (cart_rows u p (db st)).
  rewrite Hone. cbn [first head]. by rewrite Hfits.
Qed.

End CartAddProperties.

(** C5 (amended).  [cart_add] keeps at most one cart row per (user,
    product) pair, whatever the request.  For keys and quantities that fit
    an SQLite INTEGER (64 bits, signed), two calls for a pair, with
    quantities [q1] and [q2], leave exactly one row for it: with quantity
    [q1 + q2] when there was none before, and with [q1 + q2] more than
    before when there was one.  When the sum of the second call does not
    fit, that call is answered with the 500 page and the row keeps the
    quantity of the first. *)
Theorem cart_add_merges (int : string → option Z) (req1 req2 : request)
    (p u q1 q2 : Z) (st : state) :
  request_quantity int req1 = Some q1 →
  request_quantity int req2 = Some q2 →
  sqlite_integer u = true → sqlite_integer p = true →
  let st1 := after (cart_add int req1 p u st) in
  let st2 := after (cart_add int req2 p u st1) in
  (cart_unique (db st) → cart_unique (db st1) ∧ cart_unique (db st2))
  ∧ (cart_rows u p (db st) = [] →
     sqlite_integer q1 = true → sqlite_integer (q1 + q2) = true →
     cart_rows u p (db st2)
     = [Cart.mk (next_id (map Cart.id (tbl_cart (db st)))) u p (q1 + q2)])
  ∧ (∀ item, cart_rows u p (db st) = [item] →
     sqlite_integer (Cart.quantity item + q1) = true →
     sqlite_integer (Cart.quantity item + q1 + q2) = true →
     cart_rows u p (db st2)
     = [Cart.mk (Cart.id item) u p (Cart.quantity item + q1 + q2)])
  ∧ (cart_rows u p (db st) = [] →
     sqlite_integer q1 = true → sqlite_integer (q1 + q2) = false →
     resp (cart_add int req2 p u st1) = server_error OverflowError
     ∧ cart_rows u p (db st2)
       = [Cart.mk (next_id (map Cart.id (tbl_cart (db st)))) u p q1]).
Proof.
  intros Hq1 Hq2 Hu Hp st1 st2. split_and!.
  - intros Huniq. split; repeat apply cart_add_preserves_unique; done.
  - intros Hnone Hfits1 Hfits2.
    pose proof (cart_add_first int _ _ _ _ _ Hq1 Hu Hp Hfits1 Hnone) as Hone.
    fold st1 in Hone. subst st2.
    by rewrite (cart_add_again int req2 p u q2 st1
                  (Cart.mk (next_id (map Cart.id (tbl_cart (db st)))) u p q1)
                  Hq2 Hu Hp Hfits2 Hone).
  - intros item Hone Hfits1 Hfits2.
    pose proof (cart_add_again int _ _ _ _ _ _ Hq1 Hu Hp Hfits1 Hone) as Hone1.
    fold st1 in Hone1. subst st2.
    by rewrite (cart_add_again int req2 p u q2 st1
                  (Cart.mk (Cart.id item) u p (Cart.quantity item + q1))
                  Hq2 Hu Hp Hfits2 Hone1).
  - intros Hnone Hfits1 Hover.
    pose proof (cart_add_first int _ _ _ _ _ Hq1 Hu Hp Hfits1 Hnone) as Hone.
    fold st1 in Hone. subst st2.
    by rewrite (cart_add_overflow int req2 p u q2 st1
                  (Cart.mk (next_id (map Cart.id (tbl_cart (db st)))) u p q1)
                  Hq2 Hu Hp Hover Hone).
Qed.

Lemma cart_add_merges_witness :
  request_quantity Sample.int (Sample.post [("quantity", "2")]) = Some 2
  ∧ request_quantity Sample.int (Sample.post [("quantity", "3")]) = Some 3
  ∧ sqlite_integer 2 = true
  ∧ cart_rows 2 2 Sample.shop = []
  ∧ cart_rows 2 2
      (db (after (cart_add Sample.int (Sample.post [("quantity", "3")]) 2 2
         (after (cart_add Sample.int (Sample.post [("quantity", "2")]) 2 2
            (State Sample.shop ∅))))))
    = [Cart.mk 4 2 2 5].
Proof.
  split_and!; [reflexivity|reflexivity|reflexivity|reflexivity|].
  apply (cart_add_merges Sample.int
           (Sample.post [("quantity", "2")]) (Sample.post [("quantity", "3")])
           2 2 2 3 (State Sample.shop ∅) eq_refl eq_refl eq_refl eq_refl);
    reflexivity.
Defined.

(** C5, as first stated.  Bob adds 2^62 of product 2, twice.  The second
    sum, 2^63, does not fit an SQLite INTEGER: the commit raises
    [OverflowError], the answer is the 500 page and the one row keeps the
    quantity 2^62, not [q1 + q2]. *)
Lemma cart_add_sum_overflows :
  ¬ merges_any_quantities SampleLimits.int
      (Sample.post [("quantity", SampleLimits.huge)])
      (Sample.post [("quantity", SampleLimits.huge)])
      2 2 (2 ^ 62) (2 ^ 62) (State Sample.shop ∅).
Proof.
  intros Hmerge.
  destruct (Hmerge eq_refl eq_refl eq_refl) as (row & Hrows & Hsum).
  vm_compute in Hrows. injection Hrows as <-.
  vm_compute in Hsum. discriminate Hsum.
Qed.

(** What the code does at that input. *)
Example cart_add_sum_overflows_run :
  let st1 := after (cart_add SampleLimits.int
                      (Sample.post [("quantity", SampleLimits.huge)]) 2 2
                      (State Sample.shop ∅)) in
  let r2 := cart_add SampleLimits.int
              (Sample.post [("quantity", SampleLimits.huge)]) 2 2 st1 in
  resp r2 = server_error OverflowError
  ∧ after r2 = st1
  ∧ cart_rows 2 2 (db st1) = [Cart.mk 4 2 2 (2 ^ 62)]
  ∧ Py.str (2 ^ 62) = SampleLimits.huge.
Proof. split_and!; reflexivity. Qed.

(** ** The commit step, case by case *)

Lemma Cart_product_same_products (d d' : database) (item : Cart.t) :
  tbl_product d = tbl_product d' → Cart_product d item = Cart_product d' item.
Proof. unfold Cart_product, Product_get. by intros ->. Qed.

Lemma filter_all {A} (P : A → Prop) `{∀ x, Decision (P x)} (l : list A) :
  (∀ x, P x) → filter P l = l.
Proof.
  intros HP. induction l as [|x l IH]; [done|].
  rewrite filter_cons, IH. case_decide as Hx; [done|]. destruct Hx. apply HP.
Qed.

(** The loop over the cart cannot fail once every product resolves; it
    appends one snapshot per row and deletes the rows by key. *)
Lemma add_order_items_spec (d0 : database) (order_id u : Z)
    (items : list Cart.t) :
  Forall (λ item, is_Some (Cart_product d0 item)) items →
  ∀ d, tbl_product d = tbl_product d0 →
  ∃ new,
    add_order_items order_id u items d
    = inr (Database (tbl_user d) (tbl_product d)
             (filter (λ r, Cart.id r ∉ map Cart.id items) (tbl_cart d))
             (tbl_order d) (tbl_order_item d ++ new))
    ∧ Forall2 (snapshot_of d0 order_id u) items new.
Proof.
  induction 1 as [|item items [p Hp] Hall IH]; intros d Hprod.
  - exists []. cbn [add_order_items map]. split; [|constructor].
    rewrite app_nil_r, filter_all by (intros; apply not_elem_of_nil).
    by destruct d.
  - cbn [add_order_items].
    rewrite (Cart_product_same_products d d0 item Hprod), Hp.
    set (oi := OrderItem.mk _ _ _ _ _ _ _).
    set (d1 := with_cart _ _).
    destruct (IH d1 Hprod) as (new & Hrun & Hsnap).
    exists (oi :: new). split.
    + rewrite Hrun. subst d1. cbn [tbl_user tbl_product tbl_cart tbl_order
        tbl_order_item with_cart with_order_item].
      f_equal. f_equal.
      * rewrite list_filter_filter. apply list_filter_iff. intros r.
        cbn [map]. rewrite not_elem_of_cons. tauto.
      * by rewrite <- app_assoc.
    + constructor; [|done]. exists p. subst oi. done.
Qed.

Lemma order_ids_below_next (rows : list Order.t) (o : Order.t) :
  o ∈ rows → Order.id o < next_id (map Order.id rows).
Proof.
  intros Hin. apply next_id_above.
  apply (list_elem_of_fmap_2 Order.id) in Hin. exact Hin.
Qed.

(** Marking the order just appended leaves the older ones alone. *)
Lemma set_order_status_new (rows : list Order.t) (o : Order.t) (s : string) :
  Order.id o = next_id (map Order.id rows) →
  set_order_status (Order.id o) s (rows ++ [o])
  = rows ++ [Order.mk (Order.id o) (Order.order_number o) (Order.user_id o)
               (Order.total_amount o) (Order.shipping o) s].
Proof.
  intros Hid. unfold set_order_status. rewrite map_app. cbn [map].
  rewrite Z.eqb_refl. f_equal.
  assert (∀ r, r ∈ rows → Order.id r < Order.id o) as Hlt.
  { intros r Hr. rewrite Hid. by apply order_ids_below_next. }
  clear Hid. induction rows as [|r rows IH]; [done|].
  cbn [map]. rewrite IH by (intros x Hx; apply Hlt; by right).
  specialize (Hlt r (list_elem_of_here _ _)).
  destruct (Z.eqb_spec (Order.id r) (Order.id o)); [lia|done].
Qed.

(** Every way a commit request can end. *)
Lemma cart_checkout_cases (uuid4 u : Z) (st : state) :
  let d := db st in
  let r := cart_checkout uuid4 u st in
  let sess := delete "payment_method" (session st) in
  let oid := next_id (map Order.id (tbl_order d)) in
  (user_cart u d = []
   ∧ r = Result (redirect (Endpoint "cart"))
           [("Your cart is empty!", "warning")] st)
  ∨ (user_cart u d ≠ []
     ∧ Py.truthy_opt (session st !! "payment_method") = false
     ∧ r = Result (redirect (Endpoint "cart_confirm"))
             [("Please confirm your order first.", "warning")] (State d sess))
  ∨ (user_cart u d ≠ []
     ∧ Py.truthy_opt (session st !! "payment_method") = true
     ∧ ∃ e, r = Result (server_error e) [] (State d sess)
            ∧ (¬ Forall (λ item, is_Some (Cart_product d item)) (user_cart u d)
               ∨ generate_order_number uuid4
                   ∈ map Order.order_number (tbl_order d)))
  ∨ (∃ pm new status,
       user_cart u d ≠ []
       ∧ session st !! "payment_method" = Some pm ∧ pm ≠ ""
       ∧ Forall (λ item, is_Some (Cart_product d item)) (user_cart u d)
       ∧ (generate_order_number uuid4 ∉ map Order.order_number (tbl_order d))
       ∧ Forall2 (snapshot_of d oid u) (user_cart u d) new
       ∧ after r
         = State
             (Database (tbl_user d) (tbl_product d)
                (filter (λ r, Cart.id r ∉ map Cart.id (user_cart u d))
                        (tbl_cart d))
                (tbl_order d
                 ++ [Order.mk oid (generate_order_number uuid4) u
                       (cart_total d (user_cart u d)) 0 status])
                (tbl_order_item d ++ new))
             sess
       ∧ ((pm = "cod" ∧ status = "Processing"
           ∧ resp r = redirect (EndpointFor "order_confirmation" oid))
          ∨ (pm = "card" ∧ status = "Paid"
             ∧ resp r = redirect (EndpointFor "order_confirmation" oid))
          ∨ (pm ≠ "cod" ∧ pm ≠ "card" ∧ status = "Awaiting Payment"
             ∧ resp r = redirect (Endpoint "cart")))).
Proof.
  intros d r sess oid. subst r. unfold cart_checkout. fold d.
  rewrite filter_by_user_id. fold (user_cart u d).
  destruct (user_cart u d) as [|item items] eqn:Hcart; [by left|].
  rewrite <- Hcart. right.
  assert (user_cart u d ≠ []) as Hne by (by rewrite Hcart).
  fold sess.
  destruct (session st !! "payment_method") as [pm|] eqn:Hpm.
  2:{ rewrite Hcart. left. done. }
  destruct pm as [|c pm'] eqn:Epm.
  { rewrite Hcart. left. done. }
  rewrite <- Epm. right.
  destruct (checkout_total d 0 (user_cart u d)) as [e|total] eqn:Htot.
  { rewrite Hcart. left. split_and!; [done|by rewrite Epm|].
    exists e. split; [done|]. left. intros Hall. rewrite <- Hcart in Hall.
    by rewrite (checkout_total_resolved _ _ _ Hall) in Htot. }
  apply checkout_total_inr in Htot as [Hall ->].
  cbn [Order.order_number Order.id].
  case_bool_decide as Hdup.
  { rewrite Hcart. left. split_and!; [done|by rewrite Epm|].
    exists IntegrityError. split; [done|]. by right. }
  destruct (add_order_items_spec d oid u _ Hall
              (with_order d
                 (tbl_order d
                  ++ [Order.mk oid (generate_order_number uuid4) u
                        (cart_total d (user_cart u d)) 0
                        (if String.eqb pm "cod"
                         then "Processing" else "Awaiting Payment")]))
              eq_refl) as (new & Hrun & Hsnap).
  fold oid. rewrite Hrun.
  cbn [tbl_user tbl_product tbl_cart tbl_order tbl_order_item with_order].
  right. rewrite Hcart.
  destruct (String.eqb_spec pm "cod") as [Hcod|Hcod].
  - exists pm, new, "Processing". rewrite <- Hcart.
    split_and!; try done; [by rewrite Epm|]. left. done.
  - destruct (String.eqb_spec pm "card") as [Hcard|Hcard].
    + exists pm, new, "Paid". rewrite <- Hcart.
      split_and!; try done; [by rewrite Epm| |right; left; done].
      cbn [after]. unfold with_order.
      cbn [tbl_user tbl_product tbl_cart tbl_order tbl_order_item].
      pose proof (set_order_status_new (tbl_order d)
                    (Order.mk oid (generate_order_number uuid4) u
                       (cart_total d (user_cart u d)) 0 "Awaiting Payment")
                    "Paid" eq_refl) as Hpaid.
      cbn [Order.id Order.order_number Order.user_id Order.total_amount
           Order.shipping] in Hpaid.
      by rewrite Hpaid.
    + exists pm, new, "Awaiting Payment". rewrite <- Hcart.
      split_and!; try done; [by rewrite Epm|]. right; right. done.
Qed.

(** With a cart whose products all resolve, a method chosen at the
    confirm step and an order number not yet in use, the commit goes
    through. *)
Lemma cart_checkout_succeeds (uuid4 u : Z) (st : state) (pm : string) :
  user_cart u (db st) ≠ [] →
  session st !! "payment_method" = Some pm →
  pm = "cod" ∨ pm = "card" →
  Forall (λ item, is_Some (Cart_product (db st) item)) (user_cart u (db st)) →
  generate_order_number uuid4 ∉ map Order.order_number (tbl_order (db st)) →
  resp (cart_checkout uuid4 u st)
  = redirect (EndpointFor "order_confirmation"
                (next_id (map Order.id (tbl_order (db st))))).
Proof.
  intros Hne Hpm Hmethod Hall Hfresh.
  destruct (cart_checkout_cases uuid4 u st)
    as [[Hnil _]|[(_ & Hfalsy & _)|[(_ & _ & e & _ & [Hbad|Hdup])|Hdone]]].
  - done.
  - rewrite Hpm in Hfalsy. by destruct Hmethod as [-> | ->].
  - done.
  - done.
  - destruct Hdone as (pm' & new & status & _ & Hpm' & _ & _ & _ & _ & _ & Hend).
    rewrite Hpm in Hpm'. injection Hpm' as <-.
    destruct Hend as [(_ & _ & Hr)|[(_ & _ & Hr)|(Hcod & Hcard & _)]];
      [done|done|].
    by destruct Hmethod.
Qed.

(** ** C1: the order a commit creates *)

Lemma upper_hexdigit (k : Z) :
  0 ≤ k < 16 → upper_hex (Py.upper_char (Py.hexdigit k)).
Proof.
  intros Hk.
  assert (Forall (λ k, upper_hex (Py.upper_char (Py.hexdigit k))) (seqZ 0 16))
    as Hall.
  { unfold upper_hex. compute_done. }
  rewrite Forall_forall in Hall. apply Hall.
  apply elem_of_seqZ. lia.
Qed.

Lemma upper_of_list (l : list ascii) :
  Py.upper (string_of_list_ascii l)
  = string_of_list_ascii (map Py.upper_char l).
Proof. induction l as [|c l IH]; [done|]. cbn. by rewrite IH. Qed.

Lemma prefix_of_list (n : nat) (l : list ascii) :
  Py.prefix n (string_of_list_ascii l) = string_of_list_ascii (take n l).
Proof.
  unfold Py.prefix. revert l. induction n as [|n IH]; intros [|c l]; cbn;
    try done.
  by rewrite IH.
Qed.

Lemma length_string_of_list (l : list ascii) :
  String.length (string_of_list_ascii l) = length l.
Proof. induction l as [|c l IH]; [done|]. cbn. by rewrite IH. Qed.

Lemma generate_order_number_format (uuid4 : Z) :
  order_number_format (generate_order_number uuid4).
Proof.
  unfold generate_order_number, order_number_format, Py.uuid_hex.
  eexists. split; [reflexivity|].
  rewrite prefix_of_list, upper_of_list, <- fmap_take.
  rewrite length_string_of_list, list_ascii_of_string_of_list_ascii.
  split; [by rewrite !length_map|].
  rewrite Forall_forall. intros c Hc.
  apply list_elem_of_fmap in Hc as (c' & -> & Hc').
  apply list_elem_of_fmap in Hc' as (i & -> & _).
  apply upper_hexdigit.
  change 15 with (Z.ones 4). rewrite Z.land_ones by lia.
  apply Z.mod_pos_bound. lia.
Qed.

(** C1.  A commit that succeeds, that is, answers with the redirect to the
    confirmation of order [oid], has added exactly one order to the store.
    It belongs to the user, its key is [oid], every row of the cart
    resolved to a product and its total is the sum over the cart rows, as
    they are at the commit, of unit price times quantity; its number is
    ['ORD-'] followed by ten characters among [0-9A-F]; the method popped
    from the session was ['cod'] or ['card'], and the status is
    ['Processing'] for the former and ['Paid'] for the latter. *)
Theorem checkout_creates_one_order (uuid4 u : Z) (st : state) (pm : string)
    (oid : Z) :
  session st !! "payment_method" = Some pm →
  resp (cart_checkout uuid4 u st)
    = redirect (EndpointFor "order_confirmation" oid) →
  ∃ o,
    tbl_order (db (after (cart_checkout uuid4 u st))) = tbl_order (db st) ++ [o]
    ∧ Order.id o = oid
    ∧ Order.user_id o = u
    ∧ user_cart u (db st) ≠ []
    ∧ Forall (λ item, is_Some (Cart_product (db st) item)) (user_cart u (db st))
    ∧ Order.total_amount o = cart_total (db st) (user_cart u (db st))
    ∧ order_number_format (Order.order_number o)
    ∧ (pm = "cod" ∨ pm = "card")
    ∧ (pm = "cod" → Order.status o = "Processing")
    ∧ (pm = "card" → Order.status o = "Paid").
Proof.
  intros Hpm Hok.
  destruct (cart_checkout_cases uuid4 u st)
    as [[_ Hr]|[(_ & _ & Hr)|[(_ & _ & e & Hr & _)|Hdone]]];
    try (rewrite Hr in Hok; discriminate).
  destruct Hdone
    as (pm' & new & status & Hne & Hpm' & _ & Hall & _ & _ & Hafter & Hend).
  rewrite Hpm in Hpm'. injection Hpm' as <-.
  rewrite Hafter. cbn [db tbl_order].
  eexists. split; [reflexivity|].
  cbn [Order.id Order.user_id Order.total_amount Order.order_number
       Order.status].
  destruct Hend as [(-> & -> & Hr)|[(-> & -> & Hr)|(_ & _ & _ & Hr)]];
    rewrite Hr in Hok; [| |discriminate];
    injection Hok as <-;
    (split_and!; try done;
     [apply generate_order_number_format|by left + by right]).
Qed.

Lemma checkout_creates_one_order_witness :
  session (Sample.paying "card" Sample.shop) !! "payment_method" = Some "card"
  ∧ resp (cart_checkout Sample.uuid 1 (Sample.paying "card" Sample.shop))
    = redirect (EndpointFor "order_confirmation" 1)
  ∧ ∃ o,
      tbl_order (db (after (cart_checkout Sample.uuid 1
                               (Sample.paying "card" Sample.shop))))
      = [] ++ [o]
      ∧ Order.id o = 1 ∧ Order.total_amount o = 2500
      ∧ Order.status o = "Paid".
Proof.
  split_and!; [reflexivity|reflexivity|].
  destruct (checkout_creates_one_order Sample.uuid 1
              (Sample.paying "card" Sample.shop) "card" 1 eq_refl eq_refl)
    as (o & Horders & Hid & _ & _ & _ & Htotal & _ & _ & _ & Hpaid).
  exists o. split_and!; [exact Horders|exact Hid|exact Htotal|exact (Hpaid eq_refl)].
Defined.

(** The total is that of the cart at the commit: Ann confirms with two
    lamps and a mug in the cart (2500), adds three mugs, then commits. *)
Example total_recomputed_at_commit :
  let st1 := after (cart_confirm (Sample.post [("payment_method", "cod")]) 1
                      (State Sample.shop ∅)) in
  let st2 := after (cart_add Sample.int (Sample.post [("quantity", "3")]) 2 1
                      st1) in
  tbl_order (db (after (cart_checkout Sample.uuid 1 st2)))
  = [Order.mk 1 "ORD-1F2E3D4C5B" 1 4000 0 "Processing"].
Proof. reflexivity. Qed.

(** The scenario of the design document: 2 x 10.00 and 1 x 5.00, paid on
    delivery. *)
Example checkout_scenario_cod :
  tbl_order (db (after (cart_checkout Sample.uuid 1
                          (Sample.paying "cod" Sample.shop))))
  = [Order.mk 1 "ORD-1F2E3D4C5B" 1 2500 0 "Processing"]
  ∧ length (tbl_order_item (db (after (cart_checkout Sample.uuid 1
                                         (Sample.paying "cod" Sample.shop)))))
    = 2%nat.
Proof. split; reflexivity. Qed.

(** ** C2: the cart is drained into snapshots *)

Lemma user_cart_drained (u : Z) (rows : list Cart.t) :
  filter (λ r, Cart.user_id r = u)
    (filter (λ r, Cart.id r
                  ∉ map Cart.id (filter (λ r, Cart.user_id r = u) rows)) rows)
  = [].
Proof.
  destruct (filter (λ r, Cart.user_id r = u) (filter _ rows))
    as [|x l] eqn:Hleft; [done|].
  assert (x ∈ x :: l) as Hin by left.
  rewrite <- Hleft in Hin.
  apply list_elem_of_filter in Hin as [Hu Hin].
  apply list_elem_of_filter in Hin as [Hnot Hin].
  destruct Hnot. apply (list_elem_of_fmap_2 Cart.id).
  by apply list_elem_of_filter.
Qed.

(** C2.  After a commit that succeeds the user has no cart row left, and
    the order items the commit appended are as many as the cart rows it
    found, in the same order, each one carrying the order's key, the
    user, the quantity of its row and the key, name and price that the
    product of the row has in the store at the commit. *)
Theorem checkout_drains_cart_into_snapshots (uuid4 u : Z) (st : state)
    (oid : Z) :
  resp (cart_checkout uuid4 u st)
    = redirect (EndpointFor "order_confirmation" oid) →
  let st' := after (cart_checkout uuid4 u st) in
  user_cart u (db st') = []
  ∧ ∃ new,
      tbl_order_item (db st') = tbl_order_item (db st) ++ new
      ∧ length new = length (user_cart u (db st))
      ∧ Forall2 (snapshot_of (db st) oid u) (user_cart u (db st)) new.
Proof.
  intros Hok st'. subst st'.
  destruct (cart_checkout_cases uuid4 u st)
    as [[_ Hr]|[(_ & _ & Hr)|[(_ & _ & e & Hr & _)|Hdone]]];
    try (rewrite Hr in Hok; discriminate).
  destruct Hdone
    as (pm & new & status & _ & _ & _ & _ & _ & Hsnap & Hafter & Hend).
  assert (oid = next_id (map Order.id (tbl_order (db st)))) as ->.
  { destruct Hend as [(_ & _ & Hr)|[(_ & _ & Hr)|(_ & _ & _ & Hr)]];
      rewrite Hr in Hok; [| |discriminate]; by injection Hok. }
  rewrite Hafter. cbn [db]. split.
  - unfold user_cart. cbn [tbl_cart]. apply user_cart_drained.
  - exists new. cbn [tbl_order_item]. split_and!; [done| |done].
    symmetry. by eapply Forall2_length.
Qed.

Lemma checkout_drains_cart_into_snapshots_witness :
  resp (cart_checkout Sample.uuid 1 (Sample.paying "cod" Sample.shop))
    = redirect (EndpointFor "order_confirmation" 1)
  ∧ user_cart 1 (db (after (cart_checkout Sample.uuid 1
                              (Sample.paying "cod" Sample.shop)))) = []
  ∧ tbl_order_item (db (after (cart_checkout Sample.uuid 1
                                 (Sample.paying "cod" Sample.shop))))
    = [OrderItem.mk 1 1 1 1 "Lamp" 1000 2; OrderItem.mk 2 1 2 1 "Mug" 500 1].
Proof.
  split_and!; [reflexivity| |reflexivity].
  apply (checkout_drains_cart_into_snapshots Sample.uuid 1
           (Sample.paying "cod" Sample.shop) 1 eq_refl).
Defined.

(** ** C4: the stored payment method is used once *)

Lemma cart_checkout_idle (uuid4 u : Z) (st : state) :
  user_cart u (db st) = [] ∨ session st !! "payment_method" = None →
  db (after (cart_checkout uuid4 u st)) = db st.
Proof.
  intros Hidle.
  destruct (cart_checkout_cases uuid4 u st)
    as [[_ ->]|[(_ & _ & ->)|[(_ & _ & e & -> & _)|Hdone]]]; try done.
  destruct Hdone as (pm & new & status & Hne & Hpm & _).
  destruct Hidle as [Hnil|Hnone]; [done|congruence].
Qed.

(** C4.  (1) Whenever a commit changes the order table, the session it
    leaves behind holds no payment method.  (2) A commit that finds a
    cart but no payment method in the session answers with a redirect to
    the confirm step and leaves the store as it was.  (3) Whatever a
    first commit did, a second commit by the same user right after it
    changes nothing in the store: two commits in a row create at most the
    one order of the first. *)
Theorem payment_method_single_use (uuid4 uuid4' u : Z) (st : state) :
  let r1 := cart_checkout uuid4 u st in
  let r2 := cart_checkout uuid4' u (after r1) in
  (tbl_order (db (after r1)) ≠ tbl_order (db st) →
   session (after r1) !! "payment_method" = None)
  ∧ (user_cart u (db st) ≠ [] → session st !! "payment_method" = None →
     resp r1 = redirect (Endpoint "cart_confirm") ∧ db (after r1) = db st)
  ∧ db (after r2) = db (after r1)
  ∧ (length (tbl_order (db (after r2))) ≤ S (length (tbl_order (db st))))%nat.
Proof.
  intros r1 r2. subst r2.
  assert (db (after (cart_checkout uuid4' u (after r1))) = db (after r1)) as Hsame.
  { apply cart_checkout_idle. subst r1.
    destruct (cart_checkout_cases uuid4 u st)
      as [[Hnil ->]|[(_ & _ & ->)|[(_ & _ & e & -> & _)|Hdone]]].
    - by left.
    - right. apply lookup_delete_eq.
    - right. apply lookup_delete_eq.
    - destruct Hdone as (pm & new & status & _ & _ & _ & _ & _ & _ & -> & _).
      right. apply lookup_delete_eq. }
  rewrite Hsame. subst r1.
  destruct (cart_checkout_cases uuid4 u st)
    as [[Hnil ->]|[(Hne & Hfalsy & ->)|[(Hne & Htruthy & e & -> & _)|Hdone]]];
    cbn [after resp db session].
  - split_and!; [done|done|done|lia].
  - split_and!; [done|done|done|lia].
  - split_and!; [done| |done|lia].
    intros _ Hnone. by rewrite Hnone in Htruthy.
  - destruct Hdone as (pm & new & status & Hne & Hpm & _ & _ & _ & _ & -> & _).
    cbn [db session tbl_order]. split_and!.
    + intros _. apply lookup_delete_eq.
    + intros _ Hnone. congruence.
    + done.
    + rewrite length_app. cbn. lia.
Qed.

(** One confirm with ['card'], then two commits: the second finds the
    cart empty and the store keeps the single order of the first. *)
Example double_submit_creates_one_order :
  let st1 := after (cart_confirm (Sample.post [("payment_method", "card")]) 1
                      (State Sample.shop ∅)) in
  let st2 := after (cart_checkout Sample.uuid 1 st1) in
  let r3 := cart_checkout (Sample.uuid + 1) 1 st2 in
  length (tbl_order (db st2)) = 1%nat
  ∧ resp r3 = redirect (Endpoint "cart")
  ∧ db (after r3) = db st2.
Proof. split_and!; reflexivity. Qed.

(** The same with a cart refilled between the two commits: the second is
    sent back to the confirm step. *)
Example replayed_commit_needs_confirm :
  let st1 := after (cart_confirm (Sample.post [("payment_method", "card")]) 1
                      (State Sample.shop ∅)) in
  let st2 := after (cart_checkout Sample.uuid 1 st1) in
  let st3 := after (cart_add Sample.int (Sample.post []) 2 1 st2) in
  let r4 := cart_checkout (Sample.uuid + 1) 1 st3 in
  resp r4 = redirect (Endpoint "cart_confirm")
  ∧ length (tbl_order (db (after r4))) = 1%nat.
Proof. split; reflexivity. Qed.

(** * Further properties of the handlers *)

(** ** Keys and unique columns *)

Lemma next_id_fresh (ids : list Z) : next_id ids ∉ ids.
Proof. intros Hin. apply next_id_above in Hin. lia. Qed.

Lemma NoDup_snoc_next {A} (f : A → Z) (l : list A) (x : A) :
  f x = next_id (map f l) → NoDup (map f l) → NoDup (map f (l ++ [x])).
Proof.
  intros Hx Hl. rewrite map_app. apply NoDup_app. split_and!; [done| |].
  - intros y Hy Hin. cbn in Hin. apply list_elem_of_singleton in Hin.
    subst y. rewrite Hx in Hy. by apply next_id_fresh in Hy.
  - cbn. apply NoDup_singleton.
Qed.

Lemma NoDup_map_filter {A} (f : A → Z) (P : A → Prop)
    `{∀ x, Decision (P x)} (l : list A) :
  NoDup (map f l) → NoDup (map f (filter P l)).
Proof.
  intros Hl. eapply sublist_NoDup; [exact Hl|].
  apply (fmap_sublist f), sublist_filter.
Qed.

Lemma same_key_same_row {A} (f : A → Z) (l : list A) (x y : A) :
  NoDup (map f l) → x ∈ l → y ∈ l → f x = f y → x = y.
Proof.
  induction l as [|z l IH]; intros Hnd Hx Hy Hf.
  - by apply not_elem_of_nil in Hx.
  - cbn in Hnd. apply NoDup_cons in Hnd as [Hz Hnd].
    apply elem_of_cons in Hx as [->|Hx], Hy as [->|Hy]; [done| | |by apply IH].
    + destruct Hz. rewrite Hf. by apply (list_elem_of_fmap_2 f).
    + destruct Hz. rewrite <- Hf. by apply (list_elem_of_fmap_2 f).
Qed.

Lemma increase_quantity_ids (pk qty : Z) (rows : list Cart.t) :
  map Cart.id (increase_quantity pk qty rows) = map Cart.id rows.
Proof.
  unfold increase_quantity. rewrite map_map. apply map_ext. intros r.
  unfold add_quantity. by destruct (Cart.id r =? pk).
Qed.

Lemma set_order_status_ids (pk : Z) (s : string) (rows : list Order.t) :
  map Order.id (set_order_status pk s rows) = map Order.id rows
  ∧ map Order.order_number (set_order_status pk s rows)
    = map Order.order_number rows.
Proof.
  unfold set_order_status. rewrite !map_map.
  split; apply map_ext; intros r; by destruct (Order.id r =? pk).
Qed.

(** What the loop of [cart_checkout] leaves behind when it ends. *)
Lemma add_order_items_inr (order_id u : Z) (items : list Cart.t) :
  ∀ d d', add_order_items order_id u items d = inr d' →
  tbl_user d' = tbl_user d ∧ tbl_product d' = tbl_product d
  ∧ tbl_order d' = tbl_order d
  ∧ tbl_cart d' = filter (λ r, Cart.id r ∉ map Cart.id items) (tbl_cart d)
  ∧ (∃ new, tbl_order_item d' = tbl_order_item d ++ new)
  ∧ (NoDup (map OrderItem.id (tbl_order_item d)) →
     NoDup (map OrderItem.id (tbl_order_item d'))).
Proof.
  induction items as [|item items IH]; intros d d' Hrun.
  - cbn in Hrun. injection Hrun as <-. split_and!; try done.
    + by rewrite filter_all by (intros; apply not_elem_of_nil).
    + exists []. by rewrite app_nil_r.
  - cbn [add_order_items] in Hrun.
    destruct (Cart_product d item) as [p|]; [|done].
    apply IH in Hrun as (Hu & Hp & Ho & Hc & [new Hoi] & Hnd).
    cbn [tbl_user tbl_product tbl_cart tbl_order tbl_order_item with_cart
         with_order_item] in *.
    split_and!; try done.
    + rewrite Hc, list_filter_filter. apply list_filter_iff. intros r.
      cbn [map]. rewrite not_elem_of_cons. tauto.
    + eexists. rewrite Hoi, <- app_assoc. done.
    + intros Hd. apply Hnd. by apply NoDup_snoc_next.
Qed.

(** The store after a commit: as before, or with one more order. *)
Lemma cart_checkout_store (uuid4 u : Z) (st : state) :
  let d := db st in
  let d' := db (after (cart_checkout uuid4 u st)) in
  d' = d
  ∨ ((generate_order_number uuid4 ∉ map Order.order_number (tbl_order d))
     ∧ tbl_user d' = tbl_user d ∧ tbl_product d' = tbl_product d
     ∧ tbl_cart d'
       = filter (λ r, Cart.id r ∉ map Cart.id (user_cart u d)) (tbl_cart d)
     ∧ (∃ status,
          tbl_order d'
          = tbl_order d
            ++ [Order.mk (next_id (map Order.id (tbl_order d)))
                  (generate_order_number uuid4) u
                  (cart_total d (user_cart u d)) 0 status])
     ∧ (∃ new, tbl_order_item d' = tbl_order_item d ++ new)
     ∧ (NoDup (map OrderItem.id (tbl_order_item d)) →
        NoDup (map OrderItem.id (tbl_order_item d')))).
Proof.
  intros d d'. subst d'. unfold cart_checkout. fold d.
  rewrite filter_by_user_id. fold (user_cart u d).
  destruct (user_cart u d) as [|item items] eqn:Hcart; [by left|].
  rewrite <- Hcart.
  destruct (session st !! "payment_method") as [[|c pm]|]; [by left| |by left].
  destruct (checkout_total d 0 (user_cart u d)) as [e|total] eqn:Htot.
  { rewrite Hcart. by left. }
  apply checkout_total_inr in Htot as [Hall ->].
  cbn [Order.order_number Order.id].
  case_bool_decide as Hdup; [rewrite Hcart; by left|].
  match goal with
  | |- context [add_order_items ?o u ?rows ?d1] =>
      destruct (add_order_items_spec d o u rows Hall d1 eq_refl)
        as (new0 & Hrun & _)
  end.
  rewrite Hrun.
  apply add_order_items_inr in Hrun as (Hu & Hp & Ho & Hc & Hoi & Hnd).
  cbn [tbl_user tbl_product tbl_cart tbl_order tbl_order_item with_order]
    in Hu, Hp, Ho, Hc, Hoi, Hnd.
  rewrite Hcart. right.
  destruct (String.eqb (String c pm) "cod"); [|destruct (String.eqb _ "card")];
    cbn [after db tbl_user tbl_product tbl_cart tbl_order tbl_order_item
         with_order]; rewrite <- ?Hcart; split_and!; try done;
    rewrite ?Ho; try (eexists; reflexivity).
  pose proof (set_order_status_new (tbl_order d)
                (Order.mk (next_id (map Order.id (tbl_order d)))
                   (generate_order_number uuid4) u
                   (cart_total d (user_cart u d)) 0 "Awaiting Payment")
                "Paid" eq_refl) as Hpaid.
  cbn [Order.id Order.order_number Order.user_id Order.total_amount
       Order.shipping] in Hpaid.
  eexists. rewrite Hpaid. reflexivity.
Qed.

Lemma set_password_columns (gph : string → string → string) (salt : string)
    (user : User.t) (password : string) (rows : list User.t) :
  map User.id (set_password gph salt user password rows) = map User.id rows
  ∧ map User.email (set_password gph salt user password rows)
    = map User.email rows.
Proof.
  unfold set_password. rewrite !map_map.
  split; apply map_ext; intros r; by destruct (User.id r =? User.id user).
Qed.

(** The store after [register]: as before, or with one more user, whose
    address no row had. *)
Lemma register_store (gph : string → string → string) (salt : string)
    (req : request) (st : state) :
  let d' := db (after (register gph salt req st)) in
  d' = db st
  ∨ ∃ email password,
      form req !! "email" = Some email ∧ email ≠ ""
      ∧ (email ∉ map User.email (tbl_user (db st)))
      ∧ d' = with_user (db st)
               (tbl_user (db st)
                ++ [User.mk (next_id (map User.id (tbl_user (db st)))) email
                      (gph salt password)]).
Proof.
  unfold register. destruct (method req); [by left|].
  destruct (form req !! "email") as [[|c email]|] eqn:Hmail;
    [by left| |by left].
  rewrite filter_by_email. unfold first.
  destruct (head _) as [other|] eqn:Hhead; [by left|].
  destruct (forallb _ _); [|by left].
  right. eexists _, _. split_and!; [done|done| |done].
  intros Hin. apply list_elem_of_fmap in Hin as (r & Hr & Hin).
  pose proof (proj1 (head_filter_None _ _) Hhead) as Hno.
  by apply (Hno r Hin).
Qed.

Lemma reset_password_store (gph : string → string → string) (salt : string)
    (req : request) (st : state) :
  let d' := db (after (reset_password gph salt req st)) in
  d' = db st
  ∨ ∃ user new,
      d' = with_user (db st) (set_password gph salt user new (tbl_user (db st))).
Proof.
  unfold reset_password.
  destruct (session st !! "reset_email") as [[|c email]|]; [by left| |by left].
  rewrite filter_by_email.
  destruct (first _) as [user|]; [|by left].
  destruct (method req); [by left|].
  destruct (form req !! "newPassword") as [new|]; [|by left].
  destruct (form req !! "confirmPassword") as [confirm|]; [|by left].
  destruct (negb (Py.truthy new) || negb (String.eqb new confirm)); [by left|].
  right. by exists user, new.
Qed.

(** X1.  [cart_add], [cart_checkout], [register] and [reset_password] keep the
    primary keys of every table unique. *)
Theorem primary_keys_preserved (int : string → option Z)
    (gph : string → string → string) (salt : string) (req : request)
    (p u uuid4 : Z) (st : state) :
  primary_keys (db st) →
  primary_keys (db (after (cart_add int req p u st)))
  ∧ primary_keys (db (after (cart_checkout uuid4 u st)))
  ∧ primary_keys (db (after (register gph salt req st)))
  ∧ primary_keys (db (after (reset_password gph salt req st))).
Proof.
  intros (Hu & Hc & Ho & Hoi). split_and!.
  - rewrite cart_add_db. unfold primary_keys.
    cbn [tbl_user tbl_cart tbl_order tbl_order_item with_cart].
    split_and!; try done.
    destruct (request_quantity int req) as [qty|] eqn:Hq.
    2:{ unfold cart_add. by rewrite Hq. }
    rewrite (cart_add_tbl_cart _ _ _ _ _ _ Hq).
    destruct (sqlite_integer u && sqlite_integer p && sqlite_integer _);
      [|done].
    destruct (head _); [by rewrite increase_quantity_ids|].
    by apply NoDup_snoc_next.
  - destruct (cart_checkout_store uuid4 u st)
      as [->|(_ & Hu' & _ & Hc' & [status Ho'] & _ & Hoi')]; [done|].
    unfold primary_keys. rewrite Hu', Hc', Ho'. split_and!; [done| | |by apply Hoi'].
    + by apply NoDup_map_filter.
    + by apply NoDup_snoc_next.
  - destruct (register_store gph salt req st)
      as [->|(email & pw & _ & _ & _ & ->)]; [done|].
    unfold primary_keys. cbn [tbl_user tbl_cart tbl_order tbl_order_item with_user].
    split_and!; try done. by apply NoDup_snoc_next.
  - destruct (reset_password_store gph salt req st)
      as [->|(user & new & ->)]; [done|].
    unfold primary_keys. cbn [tbl_user tbl_cart tbl_order tbl_order_item with_user].
    split_and!; try done.
    by rewrite (proj1 (set_password_columns _ _ _ _ _)).
Qed.

Lemma primary_keys_preserved_witness :
  primary_keys Sample.shop
  ∧ primary_keys (db (after (cart_checkout Sample.uuid 1
                               (Sample.paying "card" Sample.shop)))).
Proof.
  assert (primary_keys Sample.shop) as Hkeys by (unfold primary_keys; compute_done).
  split; [exact Hkeys|].
  apply (primary_keys_preserved Sample.int Sample.generate_password_hash "s1"
           (Sample.post []) 1 1 Sample.uuid
           (Sample.paying "card" Sample.shop) Hkeys).
Defined.

(** X2.  [register], [reset_password] and [cart_checkout] keep the e-mail
    addresses of the users and the numbers of the orders pairwise
    distinct, as the UNIQUE constraints of the two columns ask. *)
Theorem unique_columns_preserved (gph : string → string → string)
    (salt : string) (req : request) (u uuid4 : Z) (st : state) :
  unique_columns (db st) →
  unique_columns (db (after (register gph salt req st)))
  ∧ unique_columns (db (after (reset_password gph salt req st)))
  ∧ unique_columns (db (after (cart_checkout uuid4 u st))).
Proof.
  intros (Hmail & Hnum). split_and!.
  - destruct (register_store gph salt req st)
      as [->|(email & pw & _ & _ & Hfresh & ->)]; [done|].
    unfold unique_columns. cbn [tbl_user tbl_order with_user].
    split; [|done]. rewrite map_app. apply NoDup_app. split_and!; [done| |].
    + intros x Hx Hin. cbn in Hin. apply list_elem_of_singleton in Hin.
      by subst x.
    + cbn. apply NoDup_singleton.
  - destruct (reset_password_store gph salt req st)
      as [->|(user & new & ->)]; [done|].
    unfold unique_columns. cbn [tbl_user tbl_order with_user].
    split; [|done]. by rewrite (proj2 (set_password_columns _ _ _ _ _)).
  - destruct (cart_checkout_store uuid4 u st)
      as [->|(Hfresh & Hu' & _ & _ & [status Ho'] & _)]; [done|].
    unfold unique_columns. rewrite Hu', Ho'. split; [done|].
    rewrite map_app. apply NoDup_app. split_and!; [done| |].
    + intros x Hx Hin. cbn in Hin. apply list_elem_of_singleton in Hin.
      by subst x.
    + cbn. apply NoDup_singleton.
Qed.

Lemma unique_columns_preserved_witness :
  unique_columns Sample.shop
  ∧ unique_columns
      (db (after (register Sample.generate_password_hash "s1"
                    (SampleAccounts.signup "cy@example.com" [])
                    (State Sample.shop ∅)))).
Proof.
  assert (unique_columns Sample.shop) as Huniq
    by (unfold unique_columns; compute_done).
  split; [exact Huniq|].
  apply (unique_columns_preserved Sample.generate_password_hash "s1"
           (SampleAccounts.signup "cy@example.com" []) 1 Sample.uuid
           (State Sample.shop ∅) Huniq).
Defined.

(** ** What the cart handlers leave alone *)

Lemma filter_fmap_fixed {A} (P : A → Prop) `{∀ x, Decision (P x)}
    (f : A → A) (l : list A) :
  (∀ x, P (f x) ↔ P x) → (∀ x, x ∈ l → P x → f x = x) →
  filter P (f <$> l) = filter P l.
Proof.
  intros Hiff Hfix. rewrite (filter_fmap_invariant P f l Hiff).
  induction l as [|x l IH]; [done|].
  rewrite filter_cons. case_decide as HP.
  - rewrite fmap_cons, (Hfix x (list_elem_of_here _ _) HP).
    f_equal. apply IH. intros y Hy. apply Hfix. by right.
  - apply IH. intros y Hy. apply Hfix. by right.
Qed.

Lemma filter_iff_in {A} (P Q : A → Prop) `{∀ x, Decision (P x)}
    `{∀ x, Decision (Q x)} (l : list A) :
  (∀ x, x ∈ l → (P x ↔ Q x)) → filter P l = filter Q l.
Proof.
  intros Hiff. induction l as [|x l IH]; [done|].
  rewrite !filter_cons, IH by (intros y Hy; apply Hiff; by right).
  pose proof (Hiff x (list_elem_of_here _ _)) as Hx.
  destruct (decide (P x)), (decide (Q x)); tauto || done.
Qed.

(** X3.  With unique keys in the cart table, [cart_add] for a pair (user,
    product) changes no row of another pair, no other table and nothing
    in the session. *)
Theorem cart_add_touches_one_pair (int : string → option Z) (req : request)
    (p u : Z) (st : state) :
  NoDup (map Cart.id (tbl_cart (db st))) →
  let st' := after (cart_add int req p u st) in
  filter (λ r, ¬ (Cart.user_id r = u ∧ Cart.product_id r = p))
         (tbl_cart (db st'))
  = filter (λ r, ¬ (Cart.user_id r = u ∧ Cart.product_id r = p))
           (tbl_cart (db st))
  ∧ db st' = with_cart (db st) (tbl_cart (db st'))
  ∧ session st' = session st.
Proof.
  intros Hkeys st'. subst st'. split_and!; [|apply cart_add_db|].
  - destruct (request_quantity int req) as [qty|] eqn:Hq.
    2:{ unfold cart_add. by rewrite Hq. }
    rewrite (cart_add_tbl_cart _ _ _ _ _ _ Hq).
    destruct (sqlite_integer u && sqlite_integer p && sqlite_integer _);
      [|done].
    destruct (head (cart_rows u p (db st))) as [item|] eqn:Hhead.
    + apply head_filter_Some in Hhead as [Hpair Hin].
      unfold increase_quantity.
      apply (filter_fmap_fixed
               (λ r, ¬ (Cart.user_id r = u ∧ Cart.product_id r = p))).
      * intros r. by rewrite add_quantity_keeps_pair.
      * intros r Hr Hother. unfold add_quantity.
        destruct (Z.eqb_spec (Cart.id r) (Cart.id item)) as [Hsame|]; [|done].
        destruct Hother.
        by rewrite (same_key_same_row Cart.id _ r item Hkeys Hr Hin Hsame).
    + rewrite filter_app. cbn [filter list_filter Cart.user_id Cart.product_id].
      case_decide as Hnot; [|by rewrite app_nil_r].
      by destruct Hnot.
  - unfold cart_add. destruct (request_quantity int req) as [qty|]; [|done].
    destruct (sqlite_integer u && sqlite_integer p); cbn [negb]; [|done].
    rewrite filter_by_user_product. unfold first.
    destruct (head _) as [item|].
    + by destruct (sqlite_integer (Cart.quantity item + qty)).
    + by destruct (sqlite_integer qty).
Qed.

Lemma cart_add_touches_one_pair_witness :
  NoDup (map Cart.id (tbl_cart Sample.shop))
  ∧ filter (λ r, ¬ (Cart.user_id r = 1 ∧ Cart.product_id r = 1))
      (tbl_cart (db (after (cart_add Sample.int
                              (Sample.post [("quantity", "3")]) 1 1
                              (State Sample.shop ∅)))))
    = [Cart.mk 2 1 2 1; Cart.mk 3 2 1 4].
Proof.
  assert (NoDup (map Cart.id (tbl_cart Sample.shop))) as Hkeys by compute_done.
  split; [exact Hkeys|].
  apply (cart_add_touches_one_pair Sample.int (Sample.post [("quantity", "3")])
           1 1 (State Sample.shop ∅) Hkeys).
Defined.

(** X4.  With unique keys in the cart table, a commit leaves the cart of every
    other user as it was; it never changes a user or a product, and it
    keeps every order and order item the store held, in place. *)
Theorem cart_checkout_leaves_others (uuid4 u : Z) (st : state) :
  NoDup (map Cart.id (tbl_cart (db st))) →
  let d' := db (after (cart_checkout uuid4 u st)) in
  (∀ u', u' ≠ u → user_cart u' d' = user_cart u' (db st))
  ∧ tbl_user d' = tbl_user (db st)
  ∧ tbl_product d' = tbl_product (db st)
  ∧ tbl_order (db st) `prefix_of` tbl_order d'
  ∧ tbl_order_item (db st) `prefix_of` tbl_order_item d'.
Proof.
  intros Hkeys d'. subst d'.
  destruct (cart_checkout_store uuid4 u st)
    as [->|(_ & Hu & Hp & Hc & [status Ho] & [new Hoi] & _)]; [done|].
  split_and!; [|done|done|by eexists|by eexists].
  intros u' Hne. unfold user_cart at 1. rewrite Hc, list_filter_filter.
  apply filter_iff_in. intros r Hr. split; [by intros [? _]|].
  intros Hu'. split; [done|]. intros Hin.
  apply list_elem_of_fmap in Hin as (r2 & Hid & Hr2).
  apply list_elem_of_filter in Hr2 as [Hu2 Hr2].
  rewrite (same_key_same_row Cart.id _ r r2 Hkeys Hr Hr2 Hid) in Hu'.
  congruence.
Qed.

Lemma cart_checkout_leaves_others_witness :
  NoDup (map Cart.id (tbl_cart Sample.shop))
  ∧ user_cart 2 (db (after (cart_checkout Sample.uuid 1
                              (Sample.paying "cod" Sample.shop))))
    = [Cart.mk 3 2 1 4].
Proof.
  assert (NoDup (map Cart.id (tbl_cart Sample.shop))) as Hkeys by compute_done.
  split; [exact Hkeys|].
  destruct (cart_checkout_leaves_others Sample.uuid 1
              (Sample.paying "cod" Sample.shop) Hkeys) as [Hothers _].
  apply (Hothers 2). discriminate.
Defined.

(** X5.  When the order number drawn is already the number of an order, the
    commit of a valid cart ends in the 500 page: no order and no order
    item is stored and the cart stays, but the payment method is gone
    from the session. *)
Theorem order_number_collision_aborts (uuid4 u : Z) (st : state) (pm : string) :
  user_cart u (db st) ≠ [] →
  session st !! "payment_method" = Some pm → pm ≠ "" →
  Forall (λ item, is_Some (Cart_product (db st) item)) (user_cart u (db st)) →
  generate_order_number uuid4 ∈ map Order.order_number (tbl_order (db st)) →
  cart_checkout uuid4 u st
  = Result (server_error IntegrityError) []
      (State (db st) (delete "payment_method" (session st))).
Proof.
  intros Hne Hpm Hpmne Hall Hdup. unfold cart_checkout.
  rewrite filter_by_user_id. fold (user_cart u (db st)).
  remember (user_cart u (db st)) as items eqn:Hitems.
  destruct items as [|item items]; [done|].
  rewrite Hpm. destruct pm as [|c pm]; [done|].
  rewrite (checkout_total_resolved _ _ _ Hall).
  cbn [Order.order_number]. by rewrite bool_decide_eq_true_2.
Qed.

Lemma order_number_collision_aborts_witness :
  generate_order_number Sample.uuid
    ∈ map Order.order_number
        (tbl_order (db (after (cart_checkout Sample.uuid 1
                                 (Sample.paying "cod" Sample.shop)))))
  ∧ resp (cart_checkout Sample.uuid 2
            (State (db (after (cart_checkout Sample.uuid 1
                                 (Sample.paying "cod" Sample.shop))))
                   {["payment_method" := "card"]}))
    = server_error IntegrityError.
Proof.
  assert (generate_order_number Sample.uuid
            ∈ map Order.order_number
                (tbl_order (db (after (cart_checkout Sample.uuid 1
                                         (Sample.paying "cod" Sample.shop))))))
    as Hdup by compute_done.
  split; [exact Hdup|].
  rewrite (order_number_collision_aborts Sample.uuid 2
             (State (db (after (cart_checkout Sample.uuid 1
                                  (Sample.paying "cod" Sample.shop))))
                    {["payment_method" := "card"]}) "card");
    [reflexivity|compute_done|reflexivity|discriminate| |exact Hdup].
  vm_compute. repeat constructor; eexists; reflexivity.
Defined.

(** ** The two checkout steps together *)

Lemma cart_confirm_post (req : request) (u : Z) (st : state) (m : string) :
  method req = POST → form req !! "payment_method" = Some m →
  user_cart u (db st) ≠ [] →
  Forall (λ item, is_Some (Cart_product (db st) item)) (user_cart u (db st)) →
  cart_confirm req u st
  = if bool_decide (m = "card") || bool_decide (m = "cod")
    then Result (redirect (Endpoint "cart_checkout"))
           [("Payment method selected.", "info")]
           (State (db st) (<["payment_method" := m]> (session st)))
    else Result (redirect (Endpoint "cart_confirm"))
           [("Please select a payment method.", "danger")] st.
Proof.
  intros Hpost Hm Hne Hall. unfold cart_confirm.
  rewrite filter_by_user_id. fold (user_cart u (db st)).
  remember (user_cart u (db st)) as items eqn:Hitems.
  destruct items as [|item items]; [done|].
  rewrite (checkout_total_resolved _ _ _ Hall), Hpost, Hm. cbn [default from_option id].
  destruct (decide (m = "card")) as [->|Hcard]; [done|].
  destruct (decide (m = "cod")) as [->|Hcod]; [done|].
  rewrite !bool_decide_eq_false_2 by congruence. done.
Qed.

(** X6.  From a cart whose products all resolve, choosing ['card'] or ['cod']
    at the confirm step leads to the commit step, and the commit that
    follows, with an order number not yet in use, answers with the
    confirmation of a new order: the store holds exactly one more order,
    the user's cart is empty and the payment method is no longer in the
    session. *)
Theorem confirm_then_commit (req : request) (uuid4 u : Z) (st : state)
    (m : string) :
  method req = POST → form req !! "payment_method" = Some m →
  m = "card" ∨ m = "cod" →
  user_cart u (db st) ≠ [] →
  Forall (λ item, is_Some (Cart_product (db st) item)) (user_cart u (db st)) →
  generate_order_number uuid4 ∉ map Order.order_number (tbl_order (db st)) →
  let r1 := cart_confirm req u st in
  let r2 := cart_checkout uuid4 u (after r1) in
  resp r1 = redirect (Endpoint "cart_checkout")
  ∧ resp r2 = redirect (EndpointFor "order_confirmation"
                          (next_id (map Order.id (tbl_order (db st)))))
  ∧ length (tbl_order (db (after r2))) = S (length (tbl_order (db st)))
  ∧ user_cart u (db (after r2)) = []
  ∧ session (after r2) !! "payment_method" = None.
Proof.
  intros Hpost Hm Hmethod Hne Hall Hfresh r1 r2. subst r2 r1.
  rewrite (cart_confirm_post req u st m Hpost Hm Hne Hall).
  assert (bool_decide (m = "card") || bool_decide (m = "cod") = true) as ->.
  { destruct Hmethod as [-> | ->]; done. }
  cbn [resp after].
  set (st1 := State (db st) (<["payment_method" := m]> (session st))).
  assert (session st1 !! "payment_method" = Some m) as Hpm
    by apply lookup_insert_eq.
  assert (m = "cod" ∨ m = "card") as Hmethod' by tauto.
  pose proof (cart_checkout_succeeds uuid4 u st1 m Hne Hpm Hmethod' Hall Hfresh)
    as Hok.
  cbn [db st1] in Hok. split_and!; [done|exact Hok| | |].
  - destruct (cart_checkout_store uuid4 u st1)
      as [Hsame|(_ & _ & _ & _ & [status Ho] & _)].
    + destruct (cart_checkout_cases uuid4 u st1)
        as [[_ Hr]|[(_ & _ & Hr)|[(_ & _ & e & Hr & _)|Hdone]]];
        try (rewrite Hr in Hok; discriminate).
      destruct Hdone as (? & ? & ? & _ & _ & _ & _ & _ & _ & Hafter & _).
      rewrite Hafter in Hsame. cbn [db st1] in Hsame.
      apply (f_equal tbl_order) in Hsame. cbn [tbl_order] in Hsame.
      apply (f_equal length) in Hsame. rewrite length_app in Hsame.
      cbn in Hsame. lia.
    + rewrite Ho. cbn [db st1]. rewrite length_app. cbn. lia.
  - destruct (cart_checkout_cases uuid4 u st1)
      as [[_ Hr]|[(_ & _ & Hr)|[(_ & _ & e & Hr & _)|Hdone]]];
      try (rewrite Hr in Hok; discriminate).
    destruct Hdone as (? & ? & ? & _ & _ & _ & _ & _ & _ & Hafter & _).
    rewrite Hafter. unfold user_cart. cbn [db tbl_cart]. apply user_cart_drained.
  - destruct (cart_checkout_cases uuid4 u st1)
      as [[_ Hr]|[(_ & _ & Hr)|[(_ & _ & e & Hr & _)|Hdone]]];
      try (rewrite Hr in Hok; discriminate).
    destruct Hdone as (? & ? & ? & _ & _ & _ & _ & _ & _ & Hafter & _).
    rewrite Hafter. cbn [session]. apply lookup_delete_eq.
Qed.

Lemma confirm_then_commit_witness :
  user_cart 2 Sample.shop ≠ []
  ∧ resp (cart_checkout Sample.uuid 2
            (after (cart_confirm (Sample.post [("payment_method", "card")]) 2
                      (State Sample.shop ∅))))
    = redirect (EndpointFor "order_confirmation" 1).
Proof.
  split; [discriminate|].
  apply (confirm_then_commit (Sample.post [("payment_method", "card")])
           Sample.uuid 2 (State Sample.shop ∅) "card");
    [reflexivity|reflexivity|by left|discriminate| |].
  - vm_compute. repeat constructor; eexists; reflexivity.
  - vm_compute. apply not_elem_of_nil.
Defined.

(** ** The payment method in the session *)

Lemma payment_method_ok_other_key (s s' : gmap string string) :
  s' !! "payment_method" = s !! "payment_method" →
  payment_method_ok s → payment_method_ok s'.
Proof. unfold payment_method_ok. by intros ->. Qed.

(** X7.  The session only ever holds ['card'] or ['cod'] as payment method: the
    confirm step stores nothing else and the commit removes what it finds.
    In such a session the last branch of [cart_checkout] is never taken:
    no commit ends with "Unexpected error occurred during checkout." and
    every order a commit adds is ['Processing'] or ['Paid'], none is left
    ['Awaiting Payment']. *)
Theorem payment_method_stays_valid (req : request) (uuid4 u : Z) (st : state) :
  payment_method_ok (session st) →
  payment_method_ok (session (after (cart_confirm req u st)))
  ∧ payment_method_ok (session (after (cart_checkout uuid4 u st)))
  ∧ flashed (cart_checkout uuid4 u st)
    ≠ [("Unexpected error occurred during checkout.", "danger")]
  ∧ (∀ o, o ∈ tbl_order (db (after (cart_checkout uuid4 u st))) →
          o ∈ tbl_order (db st)
          ∨ Order.status o = "Processing" ∨ Order.status o = "Paid").
Proof.
  intros Hok. split_and!.
  - unfold cart_confirm. rewrite filter_by_user_id.
    destruct (filter _ _) as [|item items]; [done|].
    destruct (checkout_total _ _ _); [done|].
    destruct (method req); [done|].
    destruct (decide (form req !! "payment_method" = Some "card")) as [Hm|Hm].
    { rewrite bool_decide_eq_true_2 by done. cbn [orb after session].
      rewrite Hm. right; left. apply lookup_insert_eq. }
    rewrite (bool_decide_eq_false_2 _ Hm). cbn [orb].
    case_bool_decide as Hm'; [|done].
    cbn [after session]. rewrite Hm'. right; right. apply lookup_insert_eq.
  - destruct (cart_checkout_cases uuid4 u st)
      as [[_ ->]|[(_ & _ & ->)|[(_ & _ & e & -> & _)|Hdone]]];
      [done| | |]; try (left; apply lookup_delete_eq).
    destruct Hdone as (? & ? & ? & _ & _ & _ & _ & _ & _ & -> & _).
    left. apply lookup_delete_eq.
  - destruct (cart_checkout_cases uuid4 u st)
      as [[_ ->]|[(_ & _ & ->)|[(_ & _ & e & -> & _)|Hdone]]];
      [done|done|done|].
    destruct Hdone as (pm & new & status & _ & Hpm & Hne & _ & _ & _ & _ & Hend).
    destruct Hend as [(-> & _ & _)|[(-> & _ & _)|(Hcod & Hcard & _)]].
    + unfold cart_checkout. rewrite filter_by_user_id.
      destruct (filter _ _); [done|]. rewrite Hpm.
      destruct (checkout_total _ _ _); [done|].
      case_bool_decide; [done|]. by destruct (add_order_items _ _ _ _).
    + unfold cart_checkout. rewrite filter_by_user_id.
      destruct (filter _ _); [done|]. rewrite Hpm.
      destruct (checkout_total _ _ _); [done|].
      case_bool_decide; [done|]. by destruct (add_order_items _ _ _ _).
    + destruct Hok as [Hnone|[Hc|Hc]]; congruence.
  - intros o Hin.
    destruct (cart_checkout_cases uuid4 u st)
      as [[_ Hr]|[(_ & _ & Hr)|[(_ & _ & e & Hr & _)|Hdone]]];
      try (rewrite Hr in Hin; by left).
    destruct Hdone as (pm & new & status & _ & Hpm & _ & _ & _ & _ & Hafter & Hend).
    rewrite Hafter in Hin. cbn [db tbl_order] in Hin.
    apply elem_of_app in Hin as [Hin|Hin]; [by left|].
    apply list_elem_of_singleton in Hin. subst o. right. cbn [Order.status].
    destruct Hend as [(_ & -> & _)|[(_ & -> & _)|(Hcod & Hcard & _)]];
      [by left|by right|].
    destruct Hok as [Hnone|[Hc|Hc]]; congruence.
Qed.

Lemma payment_method_stays_valid_witness :
  payment_method_ok (session (Sample.paying "card" Sample.shop))
  ∧ flashed (cart_checkout Sample.uuid 1 (Sample.paying "card" Sample.shop))
    ≠ [("Unexpected error occurred during checkout.", "danger")].
Proof.
  assert (payment_method_ok (session (Sample.paying "card" Sample.shop)))
    as Hok by (right; left; reflexivity).
  split; [exact Hok|].
  apply (payment_method_stays_valid (Sample.post []) Sample.uuid 1
           (Sample.paying "card" Sample.shop) Hok).
Defined.

(** ** How much of the UUID an order number keeps *)

Lemma nibble_range (u : Z) (i : nat) : 0 ≤ nibble u i < 16.
Proof.
  unfold nibble. change 15 with (Z.ones 4). rewrite Z.land_ones by lia.
  apply Z.mod_pos_bound. lia.
Qed.

Lemma upper_hexdigit_inj (a b : Z) :
  0 ≤ a < 16 → 0 ≤ b < 16 →
  Py.upper_char (Py.hexdigit a) = Py.upper_char (Py.hexdigit b) → a = b.
Proof.
  intros Ha Hb.
  assert (Forall (λ a, Forall (λ b,
            Py.upper_char (Py.hexdigit a) = Py.upper_char (Py.hexdigit b) →
            a = b) (seqZ 0 16)) (seqZ 0 16)) as Hall by compute_done.
  rewrite Forall_forall in Hall.
  assert (a ∈ seqZ 0 16) as Hina by (apply elem_of_seqZ; lia).
  specialize (Hall a Hina). rewrite Forall_forall in Hall.
  apply Hall. apply elem_of_seqZ. lia.
Qed.

Lemma generate_order_number_nibbles (u : Z) :
  generate_order_number u
  = "ORD-" +:+ string_of_list_ascii
                 (map (λ i, Py.upper_char (Py.hexdigit (nibble u i)))
                      [31; 30; 29; 28; 27; 26; 25; 24; 23; 22]%nat).
Proof.
  unfold generate_order_number, Py.uuid_hex.
  rewrite prefix_of_list, upper_of_list, <- fmap_take.
  rewrite map_map. reflexivity.
Qed.

Lemma nibble_testbit (u : Z) (i : nat) (j : Z) :
  0 ≤ j →
  Z.testbit (nibble u i) j
  = if j <? 4 then Z.testbit u (4 * Z.of_nat i + j) else false.
Proof.
  intros Hj. unfold nibble. rewrite Z.land_spec, Z.shiftr_spec by lia.
  change 15 with (Z.ones 4). rewrite Z.testbit_ones_nonneg by lia.
  destruct (Z.ltb_spec j 4).
  - rewrite andb_true_r. f_equal. lia.
  - by rewrite andb_false_r.
Qed.

Lemma top_bits_testbit (u n : Z) :
  0 ≤ n →
  Z.testbit (Z.shiftr u 88 mod 2 ^ 40) n
  = if n <? 40 then Z.testbit u (n + 88) else false.
Proof.
  intros Hn. destruct (Z.ltb_spec n 40).
  - rewrite Z.mod_pow2_bits_low by lia. by rewrite Z.shiftr_spec by lia.
  - by rewrite Z.mod_pow2_bits_high by lia.
Qed.

(** X8.  Two UUIDs give the same order number exactly when they agree on
    their 40 leading bits (bits 88 to 127): the number keeps the first ten
    hexadecimal digits and nothing of the other 88 bits. *)
Theorem generate_order_number_keeps_40_bits (u v : Z) :
  generate_order_number u = generate_order_number v
  ↔ Z.shiftr u 88 mod 2 ^ 40 = Z.shiftr v 88 mod 2 ^ 40.
Proof.
  rewrite !generate_order_number_nibbles. split.
  - intros Heq. injection Heq as E1 E2 E3 E4 E5 E6 E7 E8 E9 E10.
    assert (∀ i, i ∈ [31; 30; 29; 28; 27; 26; 25; 24; 23; 22]%nat →
                 nibble u i = nibble v i) as Hnib.
    { intros i Hi.
      apply upper_hexdigit_inj; [apply nibble_range|apply nibble_range|].
      repeat (apply elem_of_cons in Hi as [->|Hi]; [assumption|]).
      by apply not_elem_of_nil in Hi. }
    apply Z.bits_inj'. intros n Hn. rewrite !top_bits_testbit by done.
    destruct (Z.ltb_spec n 40); [|done].
    set (i := Z.to_nat ((n + 88) / 4)). set (j := (n + 88) mod 4).
    assert (n + 88 = 4 * Z.of_nat i + j) as Hsplit.
    { subst i j. rewrite Z2Nat.id by (apply Z.div_pos; lia).
      apply Z.div_mod. lia. }
    assert (0 ≤ j < 4) as Hj by (subst j; apply Z.mod_pos_bound; lia).
    assert (i ∈ [31; 30; 29; 28; 27; 26; 25; 24; 23; 22]%nat) as Hi.
    { assert (22 ≤ i ≤ 31)%nat as Hrange by lia.
      assert (Forall (λ i, i ∈ [31; 30; 29; 28; 27; 26; 25; 24; 23; 22]%nat)
                     (seq 22 10)) as Hall by compute_done.
      rewrite Forall_forall in Hall. apply Hall. apply elem_of_seq. lia. }
    pose proof (f_equal (λ x, Z.testbit x j) (Hnib i Hi)) as Hbit.
    cbn beta in Hbit. rewrite !nibble_testbit in Hbit by lia.
    destruct (Z.ltb_spec j 4); [|lia]. by rewrite Hsplit.
  - intros Htop. f_equal. f_equal.
    apply map_ext_in. intros i Hi. f_equal. f_equal.
    apply Z.bits_inj'. intros j Hj. rewrite !nibble_testbit by done.
    destruct (Z.ltb_spec j 4); [|done].
    assert (22 ≤ i ≤ 31)%nat as Hrange.
    { apply list_elem_of_In in Hi.
      repeat (apply elem_of_cons in Hi as [->|Hi]; [lia|]).
      by apply not_elem_of_nil in Hi. }
    pose proof (f_equal (λ x, Z.testbit x (4 * Z.of_nat i + j - 88)) Htop)
      as Hbit.
    cbn beta in Hbit. rewrite !top_bits_testbit in Hbit by lia.
    destruct (Z.ltb_spec (4 * Z.of_nat i + j - 88) 40); [|lia].
    by replace (4 * Z.of_nat i + j - 88 + 88) with (4 * Z.of_nat i + j)
      in Hbit by lia.
Qed.

(** Two UUIDs that differ in their last digit only. *)
Example order_numbers_collide :
  Sample.uuid ≠ Sample.uuid + 1
  ∧ generate_order_number Sample.uuid = generate_order_number (Sample.uuid + 1).
Proof. split; [discriminate|reflexivity]. Qed.

(** ** Decimal text of an integer *)

Lemma string_of_uint_no_space (d : Decimal.uint) :
  Forall (λ c, Py.isspace c = false)
         (list_ascii_of_string (NilEmpty.string_of_uint d)).
Proof. induction d; cbn; constructor; done. Qed.

Lemma str_no_space (n : Z) :
  0 ≤ n → Forall (λ c, Py.isspace c = false) (list_ascii_of_string (Py.str n)).
Proof.
  intros Hn. unfold Py.str. destruct n as [|p|p]; [by repeat constructor| |lia].
  cbn [Z.to_int NilZero.string_of_int]. unfold NilZero.string_of_uint.
  destruct (Pos.to_uint p) eqn:Hd; try (rewrite <- Hd; apply string_of_uint_no_space).
  by repeat constructor.
Qed.

Lemma str_nonempty (n : Z) : 0 ≤ n → Py.str n ≠ "".
Proof.
  intros Hn. unfold Py.str. destruct n as [|p|p]; [done| |lia].
  cbn [Z.to_int NilZero.string_of_int]. unfold NilZero.string_of_uint.
  by destruct (Pos.to_uint p).
Qed.

Lemma strip_no_space (s : string) :
  Forall (λ c, Py.isspace c = false) (list_ascii_of_string s) →
  Py.strip s = s.
Proof.
  intros Hs. unfold Py.strip.
  assert (Py.lstrip s = s) as ->.
  { destruct s as [|c s]; [done|]. cbn in Hs. apply Forall_cons in Hs as [Hc _].
    cbn. by rewrite Hc. }
  induction s as [|c s IH]; [done|].
  cbn in Hs. apply Forall_cons in Hs as [Hc Hs].
  cbn. rewrite (IH Hs), Hc. by destruct s.
Qed.

Lemma strip_str (n : Z) : 0 ≤ n → Py.strip (Py.str n) = Py.str n.
Proof. intros Hn. by apply strip_no_space, str_no_space. Qed.

(** ** Requesting and verifying a reset code *)

Lemma forgot_password_known (isoformat : Z → string) (drawn now : Z)
    (req : request) (st : state) (email : string) :
  method req = POST → form req !! "email" = Some email →
  email ∈ map User.email (tbl_user (db st)) →
  forgot_password isoformat drawn now req st
  = (Result (redirect (Endpoint "verify_code"))
       [("If an account exists, a verification code has been sent to your email.",
         "info")]
       (State (db st)
          (<["reset_expiry" := isoformat (now + ten_minutes)]>
             (<["reset_code" := Py.str drawn]>
                (<["reset_email" := email]> (session st))))),
     [EmailMessage "MyShop Password Reset Code" email
        (reset_mail_body (Py.str drawn))]).
Proof.
  intros Hpost Hmail Hin. unfold forgot_password.
  rewrite Hpost, Hmail, filter_by_email. unfold first.
  destruct (head _) as [user|] eqn:Hhead.
  - apply head_filter_Some in Hhead as [Hu _]. by rewrite Hu.
  - apply list_elem_of_fmap in Hin as (user & Hu & Hin).
    pose proof (proj1 (head_filter_None _ _) Hhead) as Hno.
    by destruct (Hno user Hin).
Qed.



(** X10.  The code that [forgot_password] stores and mails is accepted by
    [verify_code] for ten minutes, blanks around it allowed, and by no
    other text; after ten minutes it is refused and the user sent back to
    the request step.  The two library functions are assumed to agree on
    the expiry that is stored. *)
Theorem reset_code_round_trip (isoformat : Z → string)
    (fromisoformat : string → option Z) (drawn now later : Z)
    (req submit : request) (st : state) (email typed : string) :
  method req = POST → form req !! "email" = Some email →
  email ∈ map User.email (tbl_user (db st)) →
  100000 ≤ drawn ≤ 999999 →
  isoformat (now + ten_minutes) ≠ "" →
  fromisoformat (isoformat (now + ten_minutes)) = Some (now + ten_minutes) →
  method submit = POST → form submit !! "code" = Some typed →
  let st1 := after (fst (forgot_password isoformat drawn now req st)) in
  let r := verify_code fromisoformat later submit st1 in
  (later ≤ now + ten_minutes → Py.strip typed = Py.str drawn →
   resp r = redirect (Endpoint "reset_password"))
  ∧ (later ≤ now + ten_minutes → Py.strip typed ≠ Py.str drawn →
     resp r = redirect (Endpoint "verify_code"))
  ∧ (now + ten_minutes < later →
     resp r = redirect (Endpoint "forgot_password"))
  ∧ Py.strip (Py.str drawn) = Py.str drawn.
Proof.
  intros Hpost Hmail Hin Hdrawn Hiso Hparse Hsubmit Htyped st1 r.
  subst r st1.
  rewrite (forgot_password_known isoformat drawn now req st email Hpost Hmail Hin).
  cbn [fst after]. unfold verify_code. cbn [session].
  rewrite Hsubmit, Htyped, lookup_insert_eq.
  rewrite lookup_insert_ne by done. rewrite lookup_insert_eq.
  cbn [default from_option id Py.truthy_opt].
  rewrite (truthy_String _ (str_nonempty drawn ltac:(lia))).
  rewrite (truthy_String _ Hiso). cbn [negb orb]. rewrite Hparse.
  split_and!.
  - intros Hle Hsame. rewrite (proj2 (Z.ltb_ge _ _) Hle), Hsame.
    by rewrite bool_decide_eq_true_2.
  - intros Hle Hdiff. rewrite (proj2 (Z.ltb_ge _ _) Hle).
    rewrite bool_decide_eq_false_2 by congruence. done.
  - intros Hlate. by rewrite (proj2 (Z.ltb_lt _ _) Hlate).
  - apply strip_str. lia.
Qed.

Lemma reset_code_round_trip_witness :
  SampleAccounts.midnight + ten_minutes = 1704067800000000
  ∧ resp (verify_code Sample.fromisoformat Sample.on_time
            (Sample.post [("code", " 123456 ")])
            (after (fst (forgot_password SampleAccounts.isoformat 123456
                           SampleAccounts.midnight
                           (Sample.post [("email", "ann@example.com")])
                           (State Sample.shop ∅)))))
    = redirect (Endpoint "reset_password").
Proof.
  split; [reflexivity|].
  apply (reset_code_round_trip SampleAccounts.isoformat Sample.fromisoformat
           123456 SampleAccounts.midnight Sample.on_time
           (Sample.post [("email", "ann@example.com")])
           (Sample.post [("code", " 123456 ")])
           (State Sample.shop ∅) "ann@example.com" " 123456 ");
    try reflexivity; try discriminate; compute_done.
Defined.

(** ** After the password is reset *)

Lemma reset_password_login_inv (gph : string → string → string)
    (salt : string) (req : request) (st : state) :
  resp (reset_password gph salt req st) = redirect (Endpoint "login") →
  session (after (reset_password gph salt req st))
  = delete "reset_expiry"
      (delete "reset_code" (delete "reset_email" (session st))).
Proof.
  unfold reset_password.
  destruct (session st !! "reset_email") as [[|c email]|]; [done| |done].
  rewrite filter_by_email.
  destruct (first _) as [user|]; [|done].
  destruct (method req); [done|].
  destruct (form req !! "newPassword") as [new|]; [|done].
  destruct (form req !! "confirmPassword") as [confirm|]; [|done].
  by destruct (negb (Py.truthy new) || negb (String.eqb new confirm)).
Qed.

(** X11.  A reset that succeeded cannot be repeated: once [reset_password] has
    answered with the redirect to the login view, any further request to
    it is sent back to the request step and changes nothing, and a code
    submitted to [verify_code] is answered "No code found". *)
Theorem reset_password_single_use (gph : string → string → string)
    (fromisoformat : string → option Z) (salt salt' : string) (now : Z)
    (req req' submit : request) (st : state) :
  resp (reset_password gph salt req st) = redirect (Endpoint "login") →
  method submit = POST →
  let st1 := after (reset_password gph salt req st) in
  reset_password gph salt' req' st1
  = Result (redirect (Endpoint "forgot_password"))
      [("Session expired. Please restart the password reset process.",
        "danger")] st1
  ∧ verify_code fromisoformat now submit st1
    = Result (redirect (Endpoint "forgot_password"))
        [("No code found. Please request a new one.", "danger")] st1.
Proof.
  intros Hok Hsubmit st1.
  pose proof (reset_password_login_inv gph salt req st Hok) as Hsess.
  fold st1 in Hsess. split.
  - unfold reset_password. rewrite Hsess.
    rewrite !lookup_delete_ne by done. by rewrite lookup_delete_eq.
  - unfold verify_code. rewrite Hsubmit, Hsess.
    rewrite lookup_delete_ne by done. by rewrite lookup_delete_eq.
Qed.

Lemma reset_password_single_use_witness :
  resp (reset_password Sample.generate_password_hash "s1"
          (Sample.post [("newPassword", "pw"); ("confirmPassword", "pw")])
          Sample.challenged)
    = redirect (Endpoint "login")
  ∧ resp (reset_password Sample.generate_password_hash "s2"
            (Sample.post [("newPassword", "pw2"); ("confirmPassword", "pw2")])
            (after (reset_password Sample.generate_password_hash "s1"
                      (Sample.post [("newPassword", "pw");
                                    ("confirmPassword", "pw")])
                      Sample.challenged)))
    = redirect (Endpoint "forgot_password").
Proof.
  split; [reflexivity|].
  destruct (reset_password_single_use Sample.generate_password_hash
              Sample.fromisoformat "s1" "s2" Sample.on_time
              (Sample.post [("newPassword", "pw"); ("confirmPassword", "pw")])
              (Sample.post [("newPassword", "pw2"); ("confirmPassword", "pw2")])
              (Sample.post [("code", "123456")])
              Sample.challenged eq_refl eq_refl) as [Hagain _].
  by rewrite Hagain.
Defined.

(** X12.  With unique user keys, [reset_password] never changes the row of a
    user other than the one the session names: every row with another
    address is in the table afterwards, unchanged; and no request to it
    changes a cart, an order or a product. *)
Theorem reset_password_leaves_other_users (gph : string → string → string)
    (salt : string) (req : request) (st : state) (email : string)
    (other : User.t) :
  NoDup (map User.id (tbl_user (db st))) →
  session st !! "reset_email" = Some email →
  other ∈ tbl_user (db st) → User.email other ≠ email →
  let d' := db (after (reset_password gph salt req st)) in
  other ∈ tbl_user d'
  ∧ length (tbl_user d') = length (tbl_user (db st))
  ∧ d' = with_user (db st) (tbl_user d').
Proof.
  intros Hkeys Hsess Hin Hne d'. subst d'. unfold reset_password.
  assert (other ∈ tbl_user (db st)
          ∧ length (tbl_user (db st)) = length (tbl_user (db st))
          ∧ db st = with_user (db st) (tbl_user (db st))) as Hsame
    by (split_and!; [done|done|by destruct (db st)]).
  rewrite Hsess. destruct email as [|c email]; [exact Hsame|].
  rewrite filter_by_email. unfold first.
  destruct (head _) as [user|] eqn:Hhead; [|exact Hsame].
  apply head_filter_Some in Hhead as [Hu Huser].
  destruct (method req); [exact Hsame|].
  destruct (form req !! "newPassword") as [new|]; [|exact Hsame].
  destruct (form req !! "confirmPassword") as [confirm|]; [|exact Hsame].
  destruct (negb (Py.truthy new) || negb (String.eqb new confirm));
    [exact Hsame|]. clear Hsame.
  cbn [after db tbl_user with_user]. split_and!; [| |done].
  - unfold set_password. apply list_elem_of_fmap. exists other. split; [|done].
    destruct (Z.eqb_spec (User.id other) (User.id user)) as [Hsame|]; [|done].
    destruct Hne.
    by rewrite (same_key_same_row User.id _ other user Hkeys Hin Huser Hsame).
  - unfold set_password. apply length_map.
Qed.

Lemma reset_password_leaves_other_users_witness :
  NoDup (map User.id (tbl_user Sample.shop))
  ∧ Sample.bob
    ∈ tbl_user (db (after (reset_password Sample.generate_password_hash "s1"
                             (Sample.post [("newPassword", "pw");
                                           ("confirmPassword", "pw")])
                             Sample.challenged))).
Proof.
  assert (NoDup (map User.id (tbl_user Sample.shop))) as Hkeys by compute_done.
  split; [exact Hkeys|].
  apply (reset_password_leaves_other_users Sample.generate_password_hash "s1"
           (Sample.post [("newPassword", "pw"); ("confirmPassword", "pw")])
           Sample.challenged "ann@example.com" Sample.bob Hkeys);
    [reflexivity|cbn; right; left|discriminate].
Defined.

(** ** Logging in *)

Lemma isspace_lower_char (c : ascii) :
  Py.isspace (Py.lower_char c) = Py.isspace c.
Proof. destruct c as [[] [] [] [] [] [] [] []]; reflexivity. Qed.

Lemma lower_char_idem (c : ascii) :
  Py.lower_char (Py.lower_char c) = Py.lower_char c.
Proof. destruct c as [[] [] [] [] [] [] [] []]; reflexivity. Qed.

Lemma lower_idem (s : string) : Py.lower (Py.lower s) = Py.lower s.
Proof. induction s as [|c s IH]; [done|]. cbn. by rewrite lower_char_idem, IH. Qed.

Lemma lstrip_lower (s : string) : Py.lstrip (Py.lower s) = Py.lower (Py.lstrip s).
Proof.
  induction s as [|c s IH]; [done|].
  cbn. rewrite isspace_lower_char. by destruct (Py.isspace c).
Qed.

Lemma rstrip_lower (s : string) : Py.rstrip (Py.lower s) = Py.lower (Py.rstrip s).
Proof.
  induction s as [|c s IH]; [done|].
  cbn. rewrite IH, isspace_lower_char.
  destruct (Py.rstrip s); [by destruct (Py.isspace c)|done].
Qed.

Lemma strip_lower (s : string) : Py.strip (Py.lower s) = Py.lower (Py.strip s).
Proof. unfold Py.strip. by rewrite lstrip_lower, rstrip_lower. Qed.

Lemma rstrip_idem (s : string) : Py.rstrip (Py.rstrip s) = Py.rstrip s.
Proof.
  assert (∀ c s, Py.rstrip (String c s)
                 = match Py.rstrip s with
                   | EmptyString =>
                       if Py.isspace c then EmptyString else String c EmptyString
                   | r' => String c r'
                   end) as Hstep by reflexivity.
  induction s as [|c s IH]; [done|].
  rewrite (Hstep c s). destruct (Py.rstrip s) as [|c' q] eqn:Hq.
  - destruct (Py.isspace c) eqn:Hc; [done|]. cbn. by rewrite Hc.
  - by rewrite Hstep, IH.
Qed.

Lemma rstrip_head (c : ascii) (s : string) :
  Py.isspace c = false → ∃ q, Py.rstrip (String c s) = String c q.
Proof.
  intros Hc. cbn. destruct (Py.rstrip s); [|by eexists].
  rewrite Hc. by eexists.
Qed.

Lemma lstrip_head (s : string) :
  Py.lstrip s = "" ∨ ∃ c q, Py.lstrip s = String c q ∧ Py.isspace c = false.
Proof.
  induction s as [|c s IH]; [by left|].
  cbn. destruct (Py.isspace c) eqn:Hc; [done|]. right. by exists c, s.
Qed.

Lemma strip_idem (s : string) : Py.strip (Py.strip s) = Py.strip s.
Proof.
  unfold Py.strip.
  assert (Py.lstrip (Py.rstrip (Py.lstrip s)) = Py.rstrip (Py.lstrip s)) as ->.
  { destruct (lstrip_head s) as [->|(c & q & -> & Hc)]; [done|].
    destruct (rstrip_head c q Hc) as [q' ->]. cbn. by rewrite Hc. }
  apply rstrip_idem.
Qed.

Lemma normalized_idem (s : string) : normalized (normalized s) = normalized s.
Proof.
  unfold normalized. by rewrite strip_lower, lower_idem, strip_idem.
Qed.

(** X13.  A POST to [login] with both fields has two outcomes.  It succeeds
    only for a user whose stored address equals the typed one stripped
    and lower-cased - so only for a stored address that is itself
    stripped and lower-case - and whose hash accepts the password; the
    session then names that user.  Otherwise the answer, "Invalid
    credentials", and the state are the same whether the address is
    unknown or the password is wrong. *)
Theorem login_outcomes (check : string → string → bool) (req : request)
    (st : state) (typed password : string) :
  method req = POST →
  form req !! "email" = Some typed → form req !! "password" = Some password →
  let r := login check req st in
  (resp r = redirect (Endpoint "index")
   ∧ ∃ user,
       user ∈ tbl_user (db st)
       ∧ User.email user = normalized typed
       ∧ normalized (User.email user) = User.email user
       ∧ check (User.password_hash user) password = true
       ∧ after r = State (db st)
                     (<["_user_id" := Py.str (User.id user)]> (session st)))
  ∨ r = Result (redirect (Endpoint "login"))
          [("Invalid credentials", "danger")] st.
Proof.
  intros Hpost Hmail Hpw r. subst r. unfold login.
  rewrite Hpost, Hmail, Hpw, filter_by_email. unfold first.
  fold (normalized typed).
  destruct (head _) as [user|] eqn:Hhead; [|by right].
  apply head_filter_Some in Hhead as [Hu Hin].
  destruct (check (User.password_hash user) password) eqn:Hcheck; [|by right].
  left. split; [done|]. exists user. split_and!; try done.
  by rewrite Hu, normalized_idem.
Qed.

Lemma login_outcomes_witness :
  method (Sample.post [("email", " ANN@example.com "); ("password", "ann")])
    = POST
  ∧ resp (login SampleAccounts.check_password_hash
            (Sample.post [("email", " ANN@example.com "); ("password", "ann")])
            (State Sample.shop ∅))
    = redirect (Endpoint "index").
Proof.
  split; [reflexivity|].
  destruct (login_outcomes SampleAccounts.check_password_hash
              (Sample.post [("email", " ANN@example.com "); ("password", "ann")])
              (State Sample.shop ∅) " ANN@example.com " "ann"
              eq_refl eq_refl eq_refl) as [[Hok _]|Hfail].
  - exact Hok.
  - discriminate Hfail.
Defined.

(** ** Registering, then logging in *)

Lemma register_ok (gph : string → string → string) (salt : string)
    (req : request) (st : state) (email : string) :
  method req = POST → form req !! "email" = Some email → email ≠ "" →
  email ∉ map User.email (tbl_user (db st)) →
  Forall (λ k, is_Some (form req !! k)) profile_keys →
  register gph salt req st
  = Result (redirect (Endpoint "login")) [("Registered. Please log in.", "success")]
      (State (with_user (db st)
                (tbl_user (db st)
                 ++ [User.mk (next_id (map User.id (tbl_user (db st)))) email
                       (gph salt (registered_password req))]))
             (session st)).
Proof.
  intros Hpost Hmail Hne Hfresh Hkeys. unfold register.
  rewrite Hpost, Hmail. destruct email as [|c email]; [done|].
  rewrite filter_by_email. unfold first.
  destruct (head _) as [other|] eqn:Hhead.
  { apply head_filter_Some in Hhead as [Ho Hin]. destruct Hfresh.
    rewrite <- Ho. by apply (list_elem_of_fmap_2 User.email). }
  assert (forallb (λ k, bool_decide (is_Some (form req !! k))) profile_keys
          = true) as ->; [|done].
  apply forallb_forall. intros k Hk. apply bool_decide_eq_true_2.
  rewrite Forall_forall in Hkeys. apply Hkeys. by apply list_elem_of_In.
Qed.

(** X14.  A registration that sends no password, or empty ones, creates the
    account all the same, with the password ['changeme']. *)
Theorem register_default_password (gph : string → string → string)
    (salt : string) (req : request) (st : state) (email : string) :
  method req = POST → form req !! "email" = Some email → email ≠ "" →
  email ∉ map User.email (tbl_user (db st)) →
  Forall (λ k, is_Some (form req !! k)) profile_keys →
  form req !! "password" = None ∨ form req !! "password" = Some "" →
  form req !! "pwd" = None ∨ form req !! "pwd" = Some "" →
  tbl_user (db (after (register gph salt req st)))
  = tbl_user (db st)
    ++ [User.mk (next_id (map User.id (tbl_user (db st)))) email
          (gph salt "changeme")].
Proof.
  intros Hpost Hmail Hne Hfresh Hkeys Hpw Hpwd.
  rewrite (register_ok gph salt req st email Hpost Hmail Hne Hfresh Hkeys).
  unfold registered_password.
  by destruct Hpw as [-> | ->], Hpwd as [-> | ->].
Qed.

Lemma register_default_password_witness :
  form (SampleAccounts.signup "cy@example.com" [("password", "")]) !! "pwd"
    = None
  ∧ tbl_user (db (after (register Sample.generate_password_hash "s1"
                           (SampleAccounts.signup "cy@example.com"
                              [("password", "")])
                           (State Sample.shop ∅))))
    = [Sample.ann; Sample.bob; User.mk 3 "cy@example.com" "pbkdf2$s1$changeme"].
Proof.
  split; [reflexivity|].
  apply (register_default_password Sample.generate_password_hash "s1"
           (SampleAccounts.signup "cy@example.com" [("password", "")])
           (State Sample.shop ∅) "cy@example.com");
    [reflexivity|reflexivity|discriminate|compute_done| |by right|by left].
  repeat constructor; eexists; reflexivity.
Defined.

Lemma login_after_register_lookup (rows : list User.t) (new : User.t)
    (key : string) :
  head (filter (λ r, User.email r = key) (rows ++ [new]))
  = match head (filter (λ r, User.email r = key) rows) with
    | Some user => Some user
    | None => if decide (User.email new = key) then Some new else None
    end.
Proof.
  rewrite filter_app.
  destruct (filter _ rows) as [|x l]; [|done].
  cbn. by case_decide.
Qed.

(** X15.  [register] stores the address as it was typed, [login] looks up the
    typed address stripped and lower-cased.  So after a registration
    under an address that is already in that form, logging in with it
    (in any case, with blanks around) and the password registered
    succeeds as the new user; after a registration under any other
    address, every login request is answered as it was before the
    registration: the new account cannot be logged into. *)
Theorem register_then_login (gph : string → string → string)
    (check : string → string → bool) (salt : string) (req req' : request)
    (st : state) (email : string) :
  method req = POST → form req !! "email" = Some email → email ≠ "" →
  email ∉ map User.email (tbl_user (db st)) →
  Forall (λ k, is_Some (form req !! k)) profile_keys →
  check (gph salt (registered_password req)) (registered_password req) = true →
  let st1 := after (register gph salt req st) in
  (∀ typed,
     method req' = POST → form req' !! "email" = Some typed →
     form req' !! "password" = Some (registered_password req) →
     normalized typed = email →
     login check req' st1
     = Result (redirect (Endpoint "index"))
         [("Logged in successfully.", "success")]
         (State (db st1)
            (<["_user_id" :=
                 Py.str (next_id (map User.id (tbl_user (db st))))]>
               (session st))))
  ∧ (normalized email ≠ email →
     resp (login check req' st1) = resp (login check req' st)
     ∧ flashed (login check req' st1) = flashed (login check req' st)
     ∧ session (after (login check req' st1))
       = session (after (login check req' st))).
Proof.
  intros Hpost Hmail Hne Hfresh Hkeys Hcheck st1. subst st1.
  rewrite (register_ok gph salt req st email Hpost Hmail Hne Hfresh Hkeys).
  cbn [after]. split.
  - intros typed Hpost' Hmail' Hpw' Hnorm. unfold login.
    rewrite Hpost', Hmail', Hpw', filter_by_email. unfold first.
    fold (normalized typed). rewrite Hnorm.
    cbn [db tbl_user with_user session]. rewrite login_after_register_lookup.
    destruct (head _) as [other|] eqn:Hhead.
    { apply head_filter_Some in Hhead as [Ho Hin]. destruct Hfresh.
      rewrite <- Ho. by apply (list_elem_of_fmap_2 User.email). }
    cbn [User.email]. rewrite decide_True by done.
    cbn [User.password_hash User.id]. by rewrite Hcheck.
  - intros Hraw. unfold login.
    destruct (method req'); [done|].
    destruct (form req' !! "email") as [typed|]; [|done].
    destruct (form req' !! "password") as [password|]; [|done].
    rewrite !filter_by_email. unfold first. fold (normalized typed).
    cbn [db tbl_user with_user session]. rewrite login_after_register_lookup.
    destruct (head _) as [other|];
      [cbv beta iota; destruct (check (User.password_hash other) password);
       split_and!; reflexivity|].
    cbn [User.email]. rewrite decide_False; [split_and!; reflexivity|].
    intros Hsame. apply Hraw. by rewrite Hsame, normalized_idem.
Qed.

Lemma register_then_login_witness :
  normalized "Cy@Example.com" ≠ "Cy@Example.com"
  ∧ resp (login SampleAccounts.check_password_hash
            (Sample.post [("email", "Cy@Example.com"); ("password", "pw")])
            (after (register Sample.generate_password_hash "s1"
                      (SampleAccounts.signup "Cy@Example.com"
                         [("password", "pw")])
                      (State Sample.shop ∅))))
    = redirect (Endpoint "login").
Proof.
  split; [discriminate|].
  destruct (register_then_login Sample.generate_password_hash
              SampleAccounts.check_password_hash "s1"
              (SampleAccounts.signup "Cy@Example.com" [("password", "pw")])
              (Sample.post [("email", "Cy@Example.com"); ("password", "pw")])
              (State Sample.shop ∅) "Cy@Example.com")
    as [_ Hraw];
    [reflexivity|reflexivity|discriminate|compute_done| |reflexivity|].
  - repeat constructor; eexists; reflexivity.
  - destruct (Hraw ltac:(discriminate)) as [Hresp _]. by rewrite Hresp.
Defined.

(** ** The session and the current user *)

Lemma head_filter_key {A} (f : A → Z) (l : list A) (x : A) :
  NoDup (map f l) → x ∈ l → head (filter (λ r, f r = f x) l) = Some x.
Proof.
  intros Hkeys Hin.
  destruct (head (filter (λ r, f r = f x) l)) as [y|] eqn:Hhead.
  - apply head_filter_Some in Hhead as [Hf Hy].
    by rewrite (same_key_same_row f l y x Hkeys Hy Hin Hf).
  - pose proof (proj1 (head_filter_None _ _) Hhead) as Hno.
    by destruct (Hno x Hin).
Qed.

(** X16.  After a login that succeeded, the user the session stands for - the
    one [load_user] finds for the key kept in the session - is the user
    whose address was looked up, and after [logout] the session stands
    for nobody.  User keys are unique, and [int] reads back the key that
    [str] wrote. *)
Theorem login_then_current_user (int : string → option Z)
    (check : string → string → bool) (req : request) (st : state)
    (typed password : string) :
  method req = POST →
  form req !! "email" = Some typed → form req !! "password" = Some password →
  NoDup (map User.id (tbl_user (db st))) →
  (∀ user, user ∈ tbl_user (db st) → User.email user = normalized typed →
           int (Py.str (User.id user)) = Some (User.id user)) →
  resp (login check req st) = redirect (Endpoint "index") →
  let st1 := after (login check req st) in
  ∃ user,
    user ∈ tbl_user (db st) ∧ User.email user = normalized typed
    ∧ current_user int st1 = inr (Some user)
    ∧ current_user int (after (logout (User.id user) st1)) = inr None.
Proof.
  intros Hpost Hmail Hpw Hkeys Hint Hok st1. subst st1. revert Hok.
  unfold login. rewrite Hpost, Hmail, Hpw, filter_by_email. unfold first.
  fold (normalized typed).
  destruct (head _) as [user|] eqn:Hhead; [|done].
  apply head_filter_Some in Hhead as [Hu Hin].
  destruct (check (User.password_hash user) password); [|done].
  intros _. exists user. split_and!; [done|done| |].
  - unfold current_user, load_user. cbn [after session db].
    rewrite lookup_insert_eq, (Hint user Hin Hu). unfold User_get.
    f_equal. by apply head_filter_key.
  - unfold current_user, logout. cbn [after session db].
    by rewrite lookup_delete_eq.
Qed.

Lemma login_then_current_user_witness :
  resp (login SampleAccounts.check_password_hash
          (Sample.post [("email", "Bob@example.com"); ("password", "bob")])
          (State Sample.shop ∅))
    = redirect (Endpoint "index")
  ∧ ∃ user,
      user ∈ tbl_user Sample.shop ∧ User.email user = "bob@example.com"
      ∧ current_user Sample.int
          (after (login SampleAccounts.check_password_hash
                    (Sample.post [("email", "Bob@example.com");
                                  ("password", "bob")])
                    (State Sample.shop ∅)))
        = inr (Some user)
      ∧ current_user Sample.int
          (after (logout (User.id user)
                    (after (login SampleAccounts.check_password_hash
                              (Sample.post [("email", "Bob@example.com");
                                            ("password", "bob")])
                              (State Sample.shop ∅)))))
        = inr None.
Proof.
  split; [reflexivity|].
  apply (login_then_current_user Sample.int SampleAccounts.check_password_hash
           (Sample.post [("email", "Bob@example.com"); ("password", "bob")])
           (State Sample.shop ∅) "Bob@example.com" "bob");
    [reflexivity|reflexivity|reflexivity|compute_done| |reflexivity].
  intros user Hin Hu. cbn in Hin.
  apply elem_of_cons in Hin as [->|Hin]; [discriminate Hu|].
  apply list_elem_of_singleton in Hin as ->. reflexivity.
Defined.

(** ** The bulk quantity form *)

Lemma startswith_qty (key : string) :
  Py.startswith "qty_" key = true ↔ ∃ pid, key = "qty_" +:+ pid.
Proof.
  unfold Py.startswith. split.
  - destruct key as [|a [|b [|c [|d rest]]]]; cbn; try done;
      repeat (case_match; try done). subst. by exists rest.
  - intros [pid ->]. by destruct pid.
Qed.

(** X17.  The dictionary that [cart_update] builds holds, under the text that
    follows ["qty_"] in a field name, the value of that field when [int]
    reads it as a positive number, and nothing else: fields with another
    name, values that do not parse and quantities of zero or less leave
    no entry. *)
Theorem cart_update_dict_lookup (int : string → option Z)
    (fields : gmap string string) (pid : string) :
  cart_update_dict int fields !! pid
  = match fields !! ("qty_" +:+ pid) with
    | Some val =>
        match int val with
        | Some q => if 0 <? q then Some q else None
        | None => None
        end
    | None => None
    end.
Proof.
  unfold cart_update_dict. revert pid.
  apply (map_fold_weak_ind
           (λ (r : gmap string Z) (m : gmap string string),
              ∀ pid, r !! pid
                     = match m !! ("qty_" +:+ pid) with
                       | Some val =>
                           match int val with
                           | Some q => if 0 <? q then Some q else None
                           | None => None
                           end
                       | None => None
                       end)).
  - intros pid. by rewrite !lookup_empty.
  - intros key val m r Hfresh IH pid. unfold cart_update_step.
    destruct (Py.startswith "qty_" key) eqn:Hstart.
    + apply startswith_qty in Hstart as [p0 ->].
      replace (default "" (Py.split1 "_" ("qty_" +:+ p0) !! 1%nat)) with p0
        by (by vm_compute).
      destruct (decide (pid = p0)) as [->|Hne].
      * rewrite lookup_insert_eq. specialize (IH p0). rewrite Hfresh in IH.
        destruct (int val) as [q|]; [|done].
        destruct (0 <? q); [apply lookup_insert_eq|done].
      * rewrite lookup_insert_ne by (intros [= Heq]; by destruct Hne).
        rewrite <- IH.
        destruct (int val) as [q|]; [|done].
        destruct (0 <? q); [by rewrite lookup_insert_ne|done].
    + rewrite lookup_insert_ne; [apply IH|].
      intros ->. assert (Py.startswith "qty_" ("qty_" +:+ pid) = true) as Hyes
        by (apply startswith_qty; by exists pid).
      congruence.
Qed.

(** A form with a valid quantity, a malformed one, a zero and a field of
    another name. *)
Example cart_update_example :
  cart_update_dict Sample.int
    (list_to_map [("qty_7", "3"); ("qty_8", "x"); ("qty_9", "0");
                  ("quantity", "2")])
  = {["7" := 3]}.
Proof. reflexivity. Qed.
